(** * A shallow embedding of the data analysis tool (app.py)

    The program is a Streamlit script: every user interaction runs it from
    top to bottom.  One run loads the uploaded file into the table [data],
    shows the dataset information, applies the cleaning steps whose widgets
    are switched on, draws the requested chart and offers the export.

    The table is a pandas DataFrame.  This file models the DataFrame as the
    list of its columns, each a name with a typed array of values, and the
    pandas operations the script calls as functions on that model.  Floating
    point values are Rocq's primitive binary64 floats, so that NaN, the
    missing-value marker of pandas, is the value the code computes with. *)

From Stdlib Require Import String Ascii List ZArith Bool Lia Floats.
From Stdlib Require Import DecimalString DecimalZ.
Import ListNotations.

Local Open Scope string_scope.
Local Open Scope list_scope.

(** ** binary64 helpers *)

(** Conversion of an integer to binary64, rounding to nearest even (what
    numpy does when an int64 array meets a float operation). *)
Definition float_of_Z (z : Z) : float :=
  SF2Prim (binary_normalize prec emax z 0%Z false).

Definition float_of_nat (n : nat) : float := float_of_Z (Z.of_nat n).

(** [numpy.rint] on the magnitudes below 2^52; above, every binary64 is
    an integer already.  NaN fails the comparison and is returned as it is. *)
Definition rint_abs (x : float) : float :=
  if (x <? 0x1p52)%float then (x + 0x1p52 - 0x1p52)%float else x.

Definition rint (x : float) : float :=
  if (x <? 0)%float then (- rint_abs (abs x))%float else rint_abs x.

(** [ndarray.round(decimals=2)]: scale, round to an integer, scale back. *)
Definition round2 (x : float) : float := (rint (x * 100) / 100)%float.

(** ** The table *)

(** A Python object held in a column of dtype [object]: text, a float
    (NaN is the missing marker there) or a boolean. *)
Inductive pyobj : Type :=
| PStr (s : string)
| PFloat (f : float)
| PBool (b : bool).

(** The arrays the CSV path of [load_data] produces, by dtype. *)
Inductive values : Type :=
| int64 (l : list Z)
| float64 (l : list float)
| bool_ (l : list bool)
| object_ (l : list pyobj).

Record Series (V : Type) : Type := mkSeries { name : string; vals : V }.
Arguments mkSeries {V} name vals.
Arguments name {V} s.
Arguments vals {V} s.

Definition Frame (V : Type) : Type := list (Series V).

(** The table between [load_data] and the type conversion step. *)
Definition DataFrame : Type := Frame values.

(** [data.columns] *)
Definition columns {V} (data : Frame V) : list string := map name data.

Definition size (v : values) : nat :=
  match v with
  | int64 l => length l
  | float64 l => length l
  | bool_ l => length l
  | object_ l => length l
  end.

(** [len(data)], [data.shape[0]] *)
Definition len (data : DataFrame) : nat :=
  match data with
  | [] => 0
  | c :: _ => size (vals c)
  end.

(** Every column has the row count of the table. *)
Definition rectangular (data : DataFrame) : Prop :=
  Forall (fun c => size (vals c) = len data) data.

Definition dtype (v : values) : string :=
  match v with
  | int64 _ => "int64"
  | float64 _ => "float64"
  | bool_ _ => "bool"
  | object_ _ => "object"
  end.

(** ** Missing values *)

Definition pyobj_isnull (o : pyobj) : bool :=
  match o with
  | PFloat f => is_nan f
  | _ => false
  end.

(** [Series.isnull()]: integer and boolean arrays cannot hold a missing
    value. *)
Definition isnull (v : values) : list bool :=
  match v with
  | int64 l => map (fun _ => false) l
  | float64 l => map is_nan l
  | bool_ l => map (fun _ => false) l
  | object_ l => map pyobj_isnull l
  end.

(** [.sum()] of a boolean array *)
Definition count_true (m : list bool) : nat := length (filter id m).

(** [.any()] of a boolean array *)
Definition any (m : list bool) : bool := existsb id m.

(** ** Dataset information (lines 73-87) *)

Record ColumnInfo : Type := mkColumnInfo {
  column_name : string;
  data_type : string;
  missing_values : nat;
  missing_pct : float
}.

(** The [col_types] table: the percentage is
    [(data.isnull().sum().values / len(data) * 100).round(2)]. *)
Definition col_types (data : DataFrame) : list ColumnInfo :=
  map (fun c =>
         let missing := count_true (isnull (vals c)) in
         mkColumnInfo (name c) (dtype (vals c)) missing
           (round2 (float_of_nat missing / float_of_nat (len data) * 100)%float))
      data.

(** ** Rows *)

(** The rows of a list of equally long columns: [n] rows, each the list of
    the columns' heads. *)
Fixpoint transpose {A} (d : A) (n : nat) (cols : list (list A)) : list (list A) :=
  match n with
  | O => []
  | S n' => map (hd d) cols :: transpose d n' (map (@tl A) cols)
  end.

(** Rows kept by a boolean mask, [arr[mask]]. *)
Fixpoint boolean_mask {A} (mask : list bool) (l : list A) : list A :=
  match mask, l with
  | b :: mask', x :: l' =>
      if b then x :: boolean_mask mask' l' else boolean_mask mask' l'
  | _, _ => []
  end.

Definition take (mask : list bool) (v : values) : values :=
  match v with
  | int64 l => int64 (boolean_mask mask l)
  | float64 l => float64 (boolean_mask mask l)
  | bool_ l => bool_ (boolean_mask mask l)
  | object_ l => object_ (boolean_mask mask l)
  end.

(** [data[mask]] *)
Definition getitem_mask (mask : list bool) (data : DataFrame) : DataFrame :=
  map (fun c => mkSeries (name c) (take mask (vals c))) data.

(** ** Duplicated rows *)

(** What [DataFrame.duplicated] compares: pandas factorizes every column
    through a hash table, in which two floats are the same key when they are
    equal or both NaN, and two Python objects when [==] holds or both are
    NaN ([True == 1.0] in Python). *)
Inductive key : Type :=
| KInt (z : Z)
| KNum (f : float)
| KStr (s : string).

Definition float_key_eqb (a b : float) : bool :=
  (a =? b)%float || (is_nan a && is_nan b).

Definition key_eqb (a b : key) : bool :=
  match a, b with
  | KInt x, KInt y => Z.eqb x y
  | KNum x, KNum y => float_key_eqb x y
  | KStr x, KStr y => String.eqb x y
  | _, _ => false
  end.

Definition pyobj_key (o : pyobj) : key :=
  match o with
  | PStr s => KStr s
  | PFloat f => KNum f
  | PBool b => KNum (if b then 1%float else 0%float)
  end.

Definition keys (v : values) : list key :=
  match v with
  | int64 l => map KInt l
  | float64 l => map KNum l
  | bool_ l => map (fun b => KInt (Z.b2z b)) l
  | object_ l => map pyobj_key l
  end.

Fixpoint row_eqb (r s : list key) : bool :=
  match r, s with
  | [], [] => true
  | a :: r', b :: s' => key_eqb a b && row_eqb r' s'
  | _, _ => false
  end.

Definition rows (data : DataFrame) : list (list key) :=
  transpose (KInt 0) (len data) (map (fun c => keys (vals c)) data).

(** A row is marked when an earlier row equals it ([keep='first']). *)
Fixpoint duplicated_from (seen rs : list (list key)) : list bool :=
  match rs with
  | [] => []
  | r :: rs' => existsb (row_eqb r) seen :: duplicated_from (r :: seen) rs'
  end.

(** [data.duplicated()] *)
Definition duplicated (data : DataFrame) : list bool :=
  duplicated_from [] (rows data).

(** [data.drop_duplicates()] *)
Definition drop_duplicates (data : DataFrame) : DataFrame :=
  getitem_mask (map negb (duplicated data)) data.

(** ** Rows with missing values *)

(** [data.isnull().any(axis=1)] *)
Definition isnull_any_row (data : DataFrame) : list bool :=
  map any (transpose false (len data) (map (fun c => isnull (vals c)) data)).

(** [data.dropna()] *)
Definition dropna (data : DataFrame) : DataFrame :=
  getitem_mask (map negb (isnull_any_row data)) data.

(** ** Numeric columns and the mean *)

(** The dtypes [select_dtypes(include=['number'])] keeps: bool is not one. *)
Definition is_number (v : values) : bool :=
  match v with
  | int64 _ | float64 _ => true
  | bool_ _ | object_ _ => false
  end.

(** [data.select_dtypes(include=['number']).columns] *)
Definition select_dtypes_number (data : DataFrame) : list string :=
  columns (filter (fun c => is_number (vals c)) data).

(** Exceptions: a pandas call returns its value or raises.  An exception
    raised outside a [try] ends the run of the script. *)
Definition raises (A : Type) : Type := (string + A)%type.
Definition ret {A} (a : A) : raises A := inr a.
Definition raise {A} (exn : string) : raises A := inl exn.
Definition bind {A B} (m : raises A) (k : A -> raises B) : raises B :=
  match m with
  | inr a => k a
  | inl exn => inl exn
  end.
Notation "x <- m ;; k" := (bind m (fun x => k))
  (at level 61, m at next level, right associativity).

(** [data[col]]: the column of that name; [KeyError] when there is none. *)
Definition getitem {V} (data : Frame V) (col : string) : raises V :=
  match find (fun c => String.eqb (name c) col) data with
  | Some c => ret (vals c)
  | None => raise "KeyError"
  end.

(** [data[col] = v]: replaces the column of that name, and appends a new
    column when there is none. *)
Fixpoint setitem {V} (data : Frame V) (col : string) (v : V) : Frame V :=
  match data with
  | [] => [mkSeries col v]
  | c :: rest =>
      if String.eqb (name c) col then mkSeries col v :: rest
      else c :: setitem rest col v
  end.

(** [ndarray.sum] of a float64 array is numpy's pairwise summation: fewer
    than 8 values are added from left to right; up to 128 values are added
    into 8 running sums, [r[k] += a[i + k]], which are then added as
    [((r0 + r1) + (r2 + r3)) + ((r4 + r5) + (r6 + r7))] before the values
    after the last full block of 8 are added one by one; a longer array is
    cut in two near the middle, at a multiple of 8. *)
Record sums8 : Type := mkSums8 {
  r0 : float; r1 : float; r2 : float; r3 : float;
  r4 : float; r5 : float; r6 : float; r7 : float
}.

(** The loop over the full blocks of 8, and the values left after it. *)
Fixpoint add_blocks (r : sums8) (a : list float) : sums8 * list float :=
  match a with
  | a0 :: a1 :: a2 :: a3 :: a4 :: a5 :: a6 :: a7 :: rest =>
      add_blocks (mkSums8 (r0 r + a0) (r1 r + a1) (r2 r + a2) (r3 r + a3)
                          (r4 r + a4) (r5 r + a5) (r6 r + a6) (r7 r + a7))%float
                 rest
  | _ => (r, a)
  end.

(** The sum of at most 128 values. *)
Definition block_sum (a : list float) : float :=
  match a with
  | a0 :: a1 :: a2 :: a3 :: a4 :: a5 :: a6 :: a7 :: rest =>
      let (r, last) := add_blocks (mkSums8 a0 a1 a2 a3 a4 a5 a6 a7) rest in
      fold_left add last
        (((r0 r + r1 r) + (r2 r + r3 r)) + ((r4 r + r5 r) + (r6 r + r7 r)))%float
  | _ => fold_left add a 0%float
  end.

(** [depth] bounds the number of cuts; the length of the array is more
    than enough (Lemma [pairwise_sum_depth]). *)
Fixpoint pairwise_sum (depth : nat) (a : list float) : float :=
  let n := length a in
  if Nat.leb n 128 then block_sum a
  else
    match depth with
    | S d =>
        let n2 := (n / 2 - (n / 2) mod 8)%nat in
        (pairwise_sum d (firstn n2 a) + pairwise_sum d (skipn n2 a))%float
    | O => block_sum a
    end.

(** [np.add.reduce]: the sum starts at 0, the identity of the addition. *)
Definition ndarray_sum (a : list float) : float :=
  (0 + pairwise_sum (length a) a)%float.

(** [nanops.nansum] as [nanmean] uses it: a NaN counts as 0 in the sum. *)
Definition nansum (l : list float) : float :=
  ndarray_sum (map (fun x => if is_nan x then 0%float else x) l).

(** [nanops.nanmean]: the sum over the count of the values that are not
    NaN; the mean of no value is NaN. *)
Definition nanmean (l : list float) : float :=
  let count := length (filter (fun x => negb (is_nan x)) l) in
  if Nat.eqb count 0 then nan else (nansum l / float_of_nat count)%float.

Definition pyobj_float (o : pyobj) : raises float :=
  match o with
  | PFloat f => ret f
  | PBool b => ret (if b then 1 else 0)%float
  | PStr _ => raise "TypeError"
  end.

Fixpoint traverse {A B} (f : A -> raises B) (l : list A) : raises (list B) :=
  match l with
  | [] => ret []
  | a :: l' => b <- f a ;; bs <- traverse f l' ;; ret (b :: bs)
  end.

(** [Series.mean()]: the values as float64, then [nanmean]; text in an
    object array cannot be added up. *)
Definition mean (v : values) : raises float :=
  match v with
  | int64 l => ret (nanmean (map float_of_Z l))
  | float64 l => ret (nanmean l)
  | bool_ l => ret (nanmean (map (fun b : bool => if b then 1 else 0)%float l))
  | object_ l => fs <- traverse pyobj_float l ;; ret (nanmean fs)
  end.

(** [Series.fillna(x)] with a float [x]: integer and boolean arrays hold no
    missing value and come back as they are. *)
Definition fillna_float (x : float) (v : values) : values :=
  match v with
  | float64 l => float64 (map (fun f => if is_nan f then x else f) l)
  | object_ l =>
      object_ (map (fun o => if pyobj_isnull o then PFloat x else o) l)
  | _ => v
  end.

(** [DataFrame.fillna(value)] with a string, column by column.  A float64
    array with a missing value cannot hold the string and becomes an object
    array; without a missing value it is returned as it is. *)
Definition fillna_str (value : string) (v : values) : values :=
  match v with
  | float64 l =>
      if any (map is_nan l)
      then object_ (map (fun f => if is_nan f then PStr value else PFloat f) l)
      else v
  | object_ l =>
      object_ (map (fun o => if pyobj_isnull o then PStr value else o) l)
  | _ => v
  end.

Definition fillna (value : string) (data : DataFrame) : DataFrame :=
  map (fun c => mkSeries (name c) (fillna_str value (vals c))) data.

(** ** What the page shows *)

Inductive message : Type :=
| success (text : string)
| info (text : string)
| warning (text : string)
| error (text : string).

(** [f"{n}"] *)
Definition str_nat (n : nat) : string := NilZero.string_of_uint (Nat.to_uint n).

(** ** Data cleaning, left column (lines 96-137) *)

(** "Remove Duplicate Rows" (lines 98-104) *)
Definition remove_duplicate_rows (data : DataFrame) : DataFrame * message :=
  let duplicate_count := count_true (duplicated data) in
  if Nat.ltb 0 duplicate_count
  then (drop_duplicates data,
        success ("Removed " ++ str_nat duplicate_count ++ " duplicate rows!"))
  else (data, info "No duplicates found in your data.").

Inductive MissingMethod : Type :=
| DropRows      (* "Drop rows with any missing values" *)
| FillMean      (* "Fill numeric columns with mean" *)
| FillCustom.   (* "Fill with custom value" *)

(** "Drop rows with any missing values" (lines 115-121) *)
Definition drop_missing_rows (data : DataFrame) : DataFrame * message :=
  let missing_count := count_true (isnull_any_row data) in
  if Nat.ltb 0 missing_count
  then (dropna data,
        success ("Dropped " ++ str_nat missing_count ++ " rows with missing values!"))
  else (data, info "No missing values found in your data.").

(** The body of the loop of lines 126-128, for one column name. *)
Definition fill_mean_col (data : DataFrame) (col : string) : raises DataFrame :=
  v <- getitem data col ;;
  if any (isnull v)
  then m <- mean v ;; ret (setitem data col (fillna_float m v))
  else ret data.

(** [for col in cols: ...], the table threaded through the iterations. *)
Fixpoint for_each {A S} (body : S -> A -> raises S) (l : list A) (s : S) : raises S :=
  match l with
  | [] => ret s
  | a :: l' => s' <- body s a ;; for_each body l' s'
  end.

(** "Fill numeric columns with mean" (lines 123-131) *)
Definition fill_numeric_with_mean (data : DataFrame) : raises (DataFrame * message) :=
  let numeric_cols := select_dtypes_number data in
  if Nat.ltb 0 (length numeric_cols)
  then data' <- for_each fill_mean_col numeric_cols data ;;
       ret (data', success "Filled missing values in numeric columns with their means!")
  else ret (data, warning "No numeric columns found.").

(** "Fill with custom value" (lines 133-137): the value is the content of a
    text input, and the fill runs when the button is pressed. *)
Definition fill_custom_value (fill_value : string) (button : bool)
    (data : DataFrame) : DataFrame * list message :=
  if button
  then (fillna fill_value data,
        [success ("Filled all missing values with '" ++ fill_value ++ "'!")])
  else (data, []).

(** ** Text helpers *)

Definition LF : ascii := ascii_of_nat 10.
Definition CR : ascii := ascii_of_nat 13.
Definition TAB : ascii := ascii_of_nat 9.
Definition COMMA : ascii := ","%char.
Definition DQUOTE : ascii := ascii_of_nat 34.

Definition chr (c : ascii) : string := String c EmptyString.

Fixpoint contains (c : ascii) (s : string) : bool :=
  match s with
  | EmptyString => false
  | String a s' => Ascii.eqb a c || contains c s'
  end.

Fixpoint endswith (s suffix : string) : bool :=
  String.eqb s suffix
  || match s with
     | EmptyString => false
     | String _ s' => endswith s' suffix
     end.

Definition lower_char (c : ascii) : ascii :=
  let n := nat_of_ascii c in
  if Nat.leb 65 n && Nat.leb n 90 then ascii_of_nat (n + 32) else c.

Fixpoint lower (s : string) : string :=
  match s with
  | EmptyString => EmptyString
  | String c s' => String (lower_char c) (lower s')
  end.

Definition mem (s : string) (l : list string) : bool := existsb (String.eqb s) l.

(** [str(z)] and its inverse on the literals [-?[0-9]+] *)
Definition str_Z (z : Z) : string := NilZero.string_of_int (Z.to_int z).

Definition parse_int (s : string) : option Z :=
  option_map Z.of_int (NilZero.int_of_string s).

Definition in_int64 (z : Z) : bool :=
  (Z.leb (- 2 ^ 63) z && Z.ltb z (2 ^ 63))%Z.

Definition is_digit (c : ascii) : bool :=
  let n := nat_of_ascii c in Nat.leb 48 n && Nat.leb n 57.

Definition digit_value (c : ascii) : Z := Z.of_nat (nat_of_ascii c - 48).

(** C's [isspace]: the space and the control characters 9 to 13. *)
Definition is_space (c : ascii) : bool :=
  let n := nat_of_ascii c in Nat.eqb n 32 || (Nat.leb 9 n && Nat.leb n 13).

Fixpoint lstrip (s : string) : string :=
  match s with
  | String c s' => if is_space c then lstrip s' else s
  | EmptyString => s
  end.

Fixpoint rev_string (acc s : string) : string :=
  match s with
  | EmptyString => acc
  | String c s' => rev_string (String c acc) s'
  end.

(** [s.strip()] *)
Definition strip (s : string) : string :=
  rev_string EmptyString (lstrip (rev_string EmptyString (lstrip s))).

(** [c * n] for a one-character string [c] *)
Fixpoint replicate (c : ascii) (n : nat) : string :=
  match n with
  | O => EmptyString
  | S n' => String c (replicate c n')
  end.

(** ** The CSV path of [load_data] (lines 51-63)

    [pd.read_csv] with its defaults, on the texts of a fragment: lines end
    in a line feed and the text holds no carriage return, the header names
    are distinct and not empty, and every row has as many fields as the
    header.  A field is a missing value, an integer, a decimal number, a
    boolean or text; a number whose binary64 value depends on more than one
    rounding is outside the fragment.  Outside the fragment the model
    gives [None]. *)

(** *** The tokenizer

    The states of the C tokenizer that the default dialect reaches
    (the comma as delimiter, the double quote as quote character, written
    twice inside a quoted field, blank lines skipped). *)
Inductive ParserState : Type :=
| START_RECORD
| START_FIELD
| IN_FIELD
| IN_QUOTED_FIELD
| QUOTE_IN_QUOTED_FIELD
| WHITESPACE_LINE.

(** What the tokenizer does with one character. *)
Inductive action : Type :=
| PUSH_CHAR (c : ascii) (next : ParserState)
| SKIP (next : ParserState)
| END_FIELD                      (* the next state is START_FIELD *)
| END_LINE                       (* END_FIELD; END_LINE: to START_RECORD *)
| SKIP_LINE.                     (* a blank line: to START_RECORD *)

Definition is_whitespace (c : ascii) : bool :=
  Ascii.eqb c " "%char || Ascii.eqb c TAB.

Fixpoint all_whitespace (s : string) : bool :=
  match s with
  | EmptyString => true
  | String c s' => is_whitespace c && all_whitespace s'
  end.

(** Blank space and nothing else. *)
Definition is_blank (s : string) : bool :=
  negb (String.eqb s EmptyString) && all_whitespace s.

Definition in_field (c : ascii) : action :=
  if Ascii.eqb c LF then END_LINE
  else if Ascii.eqb c COMMA then END_FIELD
  else PUSH_CHAR c IN_FIELD.

Definition start_field (c : ascii) : action :=
  if Ascii.eqb c LF then END_LINE
  else if Ascii.eqb c DQUOTE then SKIP IN_QUOTED_FIELD
  else if Ascii.eqb c COMMA then END_FIELD
  else PUSH_CHAR c IN_FIELD.

(** A line of blank space is skipped like an empty line: the tokenizer
    reads on in [WHITESPACE_LINE] and, at the first other character, goes
    back to the start of the line and reads it as a field; here the blank
    space read so far is kept as the field, which comes to the same. *)
Definition transition (state : ParserState) (c : ascii) : action :=
  match state with
  | START_RECORD =>
      if Ascii.eqb c LF then SKIP_LINE
      else if is_whitespace c then PUSH_CHAR c WHITESPACE_LINE
      else start_field c
  | START_FIELD => start_field c
  | IN_FIELD => in_field c
  | IN_QUOTED_FIELD =>
      if Ascii.eqb c DQUOTE then SKIP QUOTE_IN_QUOTED_FIELD
      else PUSH_CHAR c IN_QUOTED_FIELD
  | QUOTE_IN_QUOTED_FIELD =>
      if Ascii.eqb c DQUOTE then PUSH_CHAR c IN_QUOTED_FIELD
      else in_field c
  | WHITESPACE_LINE =>
      if Ascii.eqb c LF then SKIP_LINE
      else if is_whitespace c then PUSH_CHAR c WHITESPACE_LINE
      else in_field c
  end.

(** The text goes on with the end of a field: a delimiter, a line feed
    or the end of the text. *)
Definition at_field_end (s : string) : bool :=
  match s with
  | EmptyString => true
  | String c _ => Ascii.eqb c COMMA || Ascii.eqb c LF
  end.

(** The records of a text; [None] when the text ends inside a quoted
    field (a parser error whose text is not modelled). *)
Fixpoint tokenize (state : ParserState) (field : string) (record : list string)
    (text : string) : option (list (list string)) :=
  match text with
  | EmptyString =>
      match state with
      | START_RECORD | WHITESPACE_LINE => Some []
      | IN_QUOTED_FIELD => None
      | _ => Some [record ++ [field]]
      end
  | String c rest =>
      match transition state c with
      | PUSH_CHAR c' next => tokenize next (field ++ chr c') record rest
      | SKIP next => tokenize next field record rest
      | END_FIELD => tokenize START_FIELD EmptyString (record ++ [field]) rest
      | END_LINE =>
          option_map (cons (record ++ [field]))
            (tokenize START_RECORD EmptyString [] rest)
      | SKIP_LINE => tokenize START_RECORD EmptyString [] rest
      end
  end.

(** *** The fields *)

Inductive token : Type :=
| NA
| TInt (z : Z)
| TFloat (f : float)
| TBool (b : bool)
| TText (s : string).

(** The strings [read_csv] takes for a missing value in every version. *)
Definition na_values : list string :=
  [ EmptyString; "#N/A"; "#N/A N/A"; "#NA"; "-1.#IND"; "-1.#QNAN"; "-NaN";
    "-nan"; "1.#IND"; "1.#QNAN"; "<NA>"; "N/A"; "NA"; "NULL"; "NaN"; "n/a";
    "nan"; "null" ].

Definition true_values : list string := [ "True"; "TRUE"; "true" ].
Definition false_values : list string := [ "False"; "FALSE"; "false" ].

(** Spellings left outside the fragment when they are not one of the
    exact spellings above: the markers in another case or with blank space
    around them, [None] (a missing value from pandas 2.0 on only), and
    blank space alone. *)
Definition reserved_lower : list string :=
  [ EmptyString; "inf"; "infinity"; "+inf"; "+infinity"; "-inf"; "-infinity";
    "nan"; "-nan"; "none"; "null"; "na"; "n/a"; "#n/a"; "#n/a n/a"; "#na";
    "-1.#ind"; "-1.#qnan"; "1.#ind"; "1.#qnan"; "<na>"; "true"; "false" ].

(** A run of digits at the head of [s]: the number read so far, the
    count of digits, and the text after the run. *)
Fixpoint digits (number : Z) (num_digits : nat) (s : string) : Z * nat * string :=
  match s with
  | String c s' =>
      if is_digit c
      then digits (number * 10 + digit_value c) (S num_digits) s'
      else (number, num_digits, s)
  | EmptyString => (number, num_digits, s)
  end.

(** What [precise_xstrtod], the decimal parser of the C engine, reads in a
    field that is a decimal number: blank space, a sign, digits with at
    most one point, an exponent, blank space.  The value is
    [number * 10 ^ exponent], with the sign. *)
Record decimal : Type := mkDecimal {
  negative : bool;
  number : Z;
  num_digits : nat;
  exponent : Z;
  plus_sign : bool;     (* written with a leading [+] *)
  padded : bool         (* written with blank space around *)
}.

Definition is_exponent_char (c : ascii) : bool :=
  Ascii.eqb c "e"%char || Ascii.eqb c "E"%char.

(** The exponent part: [e] or [E], a sign, digits.  Without a digit the
    part is not read and the [e] stays in the text. *)
Definition scan_exponent (s : string) : Z * string :=
  match s with
  | String c s' =>
      if is_exponent_char c then
        let '(neg, s'') :=
          match s' with
          | String "-"%char t => (true, t)
          | String "+"%char t => (false, t)
          | _ => (false, s')
          end in
        let '(n, count, rest) := digits 0 0 s'' in
        if Nat.eqb count 0 then (0%Z, s)
        else ((if neg then - n else n)%Z, rest)
      else (0%Z, s)
  | EmptyString => (0%Z, s)
  end.

Definition precise_xstrtod (s : string) : option decimal :=
  let p := lstrip s in
  let '(neg, plus, p1) :=
    match p with
    | String "-"%char t => (true, false, t)
    | String "+"%char t => (false, true, t)
    | _ => (false, false, p)
    end in
  let '(n1, d1, p2) := digits 0 0 p1 in
  let '(n2, d2, p3) :=
    match p2 with
    | String "."%char t => digits n1 d1 t
    | _ => (n1, d1, p2)
    end in
  if Nat.eqb d2 0 then None
  else
    let '(e, p4) := scan_exponent p3 in
    match lstrip p4 with
    | EmptyString =>
        Some (mkDecimal neg n2 d2 (e - Z.of_nat (d2 - d1))%Z plus
                (negb (String.eqb p s) || negb (String.eqb p4 EmptyString)))
    | _ => None
    end.

(** The binary64 value of a decimal of at most 15 digits and a power of
    ten up to 22: both are binary64 numbers and the parser multiplies or
    divides them once, so the value is the correctly rounded one.  Beyond,
    the parser rounds more than once. *)
Definition double_of_decimal (d : decimal) : option float :=
  if Nat.leb (num_digits d) 15 && Z.leb (Z.abs (exponent d)) 22 then
    let n := float_of_Z (number d) in
    let n := if negative d then (- n)%float else n in
    Some (if Z.ltb 0 (exponent d)
          then (n * float_of_Z (10 ^ exponent d))%float
          else (n / float_of_Z (10 ^ (- exponent d)))%float)
  else None.

(** How the C parser reads one field.  It tries an integer, then a
    decimal number or an infinity, then a boolean; what is left is text.
    A field of blank space only is left outside: alone on its line it is
    skipped with the line. *)
Definition classify (s : string) : option token :=
  if contains CR s || is_blank s then None
  else if mem s na_values then Some NA
  else match parse_int s with
       | Some z => if in_int64 z then Some (TInt z) else None
       | None =>
           match precise_xstrtod s with
           | Some d =>
               if plus_sign d || padded d then None
               else option_map TFloat (double_of_decimal d)
           | None =>
               if mem (lower s) ["inf"; "infinity"; "+inf"; "+infinity"]
               then Some (TFloat infinity)
               else if mem (lower s) ["-inf"; "-infinity"]
               then Some (TFloat neg_infinity)
               else if mem s true_values then Some (TBool true)
               else if mem s false_values then Some (TBool false)
               else if mem (lower (strip s)) reserved_lower then None
               else Some (TText s)
           end
       end.

Definition is_int (t : token) : bool :=
  match t with TInt _ => true | _ => false end.
Definition is_number_or_na (t : token) : bool :=
  match t with TInt _ | TFloat _ | NA => true | _ => false end.
Definition is_bool (t : token) : bool :=
  match t with TBool _ => true | _ => false end.
Definition is_bool_or_na (t : token) : bool :=
  match t with TBool _ | NA => true | _ => false end.

(** The dtype inference of the C parser for one column: int64, then
    float64, then bool, then object; a column without rows is an object
    column.  (An integer beyond 2^53 in a float64 column is rounded to
    nearest here; the decimal parser can differ from that in the last
    bit.) *)
Definition infer (fields : list (string * token)) : values :=
  let toks := map snd fields in
  match toks with
  | [] => object_ []
  | _ =>
      if forallb is_int toks
      then int64 (map (fun t => match t with TInt z => z | _ => 0%Z end) toks)
      else if forallb is_number_or_na toks
      then float64 (map (fun t => match t with
                                  | TInt z => float_of_Z z
                                  | TFloat f => f
                                  | _ => nan
                                  end) toks)
      else if forallb is_bool toks
      then bool_ (map (fun t => match t with TBool b => b | _ => false end) toks)
      else if forallb is_bool_or_na toks
      then object_ (map (fun t => match t with TBool b => PBool b | _ => PFloat nan end) toks)
      else object_ (map (fun f => match snd f with NA => PFloat nan | _ => PStr (fst f) end) fields)
  end.

Fixpoint option_all {A} (l : list (option A)) : option (list A) :=
  match l with
  | [] => Some []
  | Some a :: l' => option_map (cons a) (option_all l')
  | None :: _ => None
  end.

Definition is_empty (s : string) : bool := String.eqb s EmptyString.

Fixpoint distinct (l : list string) : bool :=
  match l with
  | [] => true
  | a :: l' => negb (mem a l') && distinct l'
  end.

(** A text without a record has no header: pandas raises
    [EmptyDataError], whose text is the one below. *)
Definition read_csv (text : string) : option (raises DataFrame) :=
  if contains CR text then None
  else
    match tokenize START_RECORD EmptyString [] text with
    | None => None
    | Some [] => Some (raise "No columns to parse from file")
    | Some (names :: records) =>
        if existsb is_empty names || negb (distinct names) then None
        else if negb (forallb (fun r => Nat.eqb (length r) (length names)) records) then None
        else
          let cols := transpose EmptyString (length names) records in
          match option_all (map (fun col => option_all (map classify col)) cols) with
          | None => None
          | Some toks =>
              Some (ret (map (fun '(n, (col, t)) => mkSeries n (infer (combine col t)))
                             (combine names (combine cols toks))))
          end
    end.

Record UploadedFile : Type := mkUploadedFile {
  file_name : string;
  content : string
}.

(** [load_data] (lines 52-63): the table, or no table and the error shown.
    The spreadsheet path decodes a binary format and is not modelled. *)
Definition load_data (file : UploadedFile) : option (option DataFrame * list message) :=
  if endswith (file_name file) ".csv" then
    match read_csv (content file) with
    | Some (inr data) => Some (Some data, [])
    | Some (inl e) => Some (None, [error ("Error loading file: " ++ e)])
    | None => None
    end
  else if endswith (file_name file) ".xls" || endswith (file_name file) ".xlsx" then None
  else Some (None, [error "Unsupported file type!"]).

(** ** The table after the type conversion *)

(** A converted column can have a dtype the loader never yields. *)
Inductive column : Type :=
| plain (v : values)
| datetime64 (l : list (option Z))   (* nanoseconds; [None] is NaT *)
| category (v : values).

Definition Table : Type := Frame column.

Definition lift (data : DataFrame) : Table :=
  map (fun c => mkSeries (name c) (plain (vals c))) data.

Definition csize (c : column) : nat :=
  match c with
  | plain v => size v
  | datetime64 l => length l
  | category v => size v
  end.

Definition nrows (data : Table) : nat :=
  match data with
  | [] => 0
  | c :: _ => csize (vals c)
  end.

(** ** CSV export: [data.to_csv(index=False)] (line 254)

    A header row and one row per table row, each ended by a line feed; a
    field holding the delimiter, the quote character or a line feed is
    quoted, and so is the lone empty field of a one-column row.  The text
    of a float of more than 15 significant digits and the text of a date
    are outside the model, and so is a field with a carriage return: there
    [to_csv] is [None]. *)

Definition needs_quoting (s : string) : bool :=
  contains COMMA s || contains DQUOTE s || contains LF s.

Fixpoint escape_quotes (s : string) : string :=
  match s with
  | EmptyString => EmptyString
  | String c s' =>
      if Ascii.eqb c DQUOTE then String DQUOTE (String DQUOTE (escape_quotes s'))
      else String c (escape_quotes s')
  end.

Definition csv_field (s : string) : string :=
  if needs_quoting s then chr DQUOTE ++ escape_quotes s ++ chr DQUOTE else s.

Definition csv_row (fields : list string) : string :=
  match fields with
  | [EmptyString] => chr DQUOTE ++ chr DQUOTE ++ chr LF
  | _ => String.concat (chr COMMA) (map csv_field fields) ++ chr LF
  end.

Definition bool_text (b : bool) : string := if b then "True" else "False".

(** *** The text of a float

    [repr] of a float is the shortest decimal that reads back as the same
    float, the nearest one among those of its length. *)

(** [A / B] rounded to the nearest integer, ties to even. *)
Definition round_half_even (A B : Z) : Z :=
  let q := (A / B)%Z in
  match (2 * (A mod B) ?= B)%Z with
  | Lt => q
  | Gt => (q + 1)%Z
  | Eq => if Z.even q then q else (q + 1)%Z
  end.

Definition num_decimal_digits (n : Z) : Z := Z.of_nat (String.length (str_Z n)).

(** The [p] significant digits of the decimal nearest to [N / D], as an
    integer, and the power of ten of its first digit. *)
Definition decimal_digits (p N D : Z) : Z * Z :=
  let x0 := (num_decimal_digits N - num_decimal_digits D)%Z in
  let x := if (if Z.leb 0 x0 then Z.leb (D * 10 ^ x0) N
               else Z.leb D (N * 10 ^ (- x0)))
           then x0 else (x0 - 1)%Z in
  let t := (p - 1 - x)%Z in
  let q := if Z.leb 0 t then round_half_even (N * 10 ^ t) D
           else round_half_even N (D * 10 ^ (- t)) in
  if Z.eqb q (10 ^ p) then ((10 ^ (p - 1))%Z, (x + 1)%Z) else (q, x).

(** The digits [q] with the power of ten [x] of the first one, written as
    [repr] does: with an exponent below 1e-4 and from 1e16 on, and with a
    point otherwise. *)
Definition float_repr (neg : bool) (q x : Z) : string :=
  let ds := str_Z q in
  let p := String.length ds in
  ((if neg then "-" else EmptyString)
   ++ (if Z.ltb x (-4) || Z.leb 16 x then
         String.substring 0 1 ds
         ++ (if Nat.ltb 1 p then "." ++ String.substring 1 (p - 1) ds else EmptyString)
         ++ "e" ++ (if Z.ltb x 0 then "-" else "+")
         ++ (if Z.ltb (Z.abs x) 10 then "0" else EmptyString) ++ str_Z (Z.abs x)
       else if Z.leb 0 x then
         let k := Z.to_nat (x + 1) in
         let ds' := ds ++ replicate "0" (k - p) in
         let frac := String.substring k (String.length ds' - k) ds' in
         String.substring 0 k ds' ++ "." ++ (if is_empty frac then "0" else frac)
       else "0." ++ replicate "0" (Z.to_nat (- x - 1)) ++ ds))%string.

(** The field is read as the float [f]. *)
Definition reads_as (f : float) (s : string) : bool :=
  match classify s with
  | Some (TFloat g) => Leibniz.eqb g f
  | _ => false
  end.

(** The binary64 nearest to [q * 10 ^ k], for [q > 0]. *)
Definition nearest_double (q k : Z) : float :=
  if Z.leb 0 k then float_of_Z (q * 10 ^ k)
  else SF2Prim (SFdiv prec emax (S754_finite false (Z.to_pos q) 0)
                                (S754_finite false (Z.to_pos (10 ^ (- k))) 0)).

(** The digits of [repr] for the positive float [m * 2 ^ e]: the first
    length, up to the 17 digits that tell any two floats apart, at which
    the nearest decimal is read back as the float. *)
Definition shortest_digits (m : positive) (e : Z) : option (Z * Z) :=
  let N := if Z.leb 0 e then (Zpos m * 2 ^ e)%Z else Zpos m in
  let D := if Z.leb 0 e then 1%Z else (2 ^ (- e))%Z in
  find (fun '(q, x) =>
          Leibniz.eqb (nearest_double q (x + 1 - num_decimal_digits q))
                      (SF2Prim (S754_finite false m e)))
       (map (fun p => decimal_digits (Z.of_nat p) N D) (seq 1 17)).

(** [repr(f)], with the empty field for NaN ([na_rep]).  The model keeps
    the text when its reader reads it back as [f]: a text of more than 15
    digits, or with a power of ten beyond 22, is outside. *)
Definition float_text (f : float) : option string :=
  match Prim2SF f with
  | S754_nan => Some EmptyString
  | S754_infinity s => Some (if s then "-inf" else "inf")
  | S754_zero s => Some (if s then "-0.0" else "0.0")
  | S754_finite s m e =>
      match shortest_digits m e with
      | Some (q, x) =>
          let text := float_repr s q x in
          if reads_as f text then Some text else None
      | None => None
      end
  end.

Definition pyobj_text (o : pyobj) : option string :=
  match o with
  | PStr s => Some s
  | PFloat f => float_text f
  | PBool b => Some (bool_text b)
  end.

Definition values_text (v : values) : option (list string) :=
  match v with
  | int64 l => Some (map str_Z l)
  | float64 l => option_all (map float_text l)
  | bool_ l => Some (map bool_text l)
  | object_ l => option_all (map pyobj_text l)
  end.

Definition column_text (c : column) : option (list string) :=
  match c with
  | plain v => values_text v
  | datetime64 _ => None
  | category v => values_text v
  end.

Definition to_csv (data : Table) : option string :=
  match option_all (map (fun c => column_text (vals c)) data) with
  | None => None
  | Some cols =>
      let records := columns data :: transpose EmptyString (nrows data) cols in
      if existsb (existsb (contains CR)) records then None
      else Some (String.concat EmptyString (map csv_row records))
  end.

(** ** Numeric columns and the correlation matrix (lines 175, 230) *)

(** The column as a float64 array when its dtype is a number. *)
Definition numeric_array (c : column) : option (list float) :=
  match c with
  | plain (int64 l) => Some (map float_of_Z l)
  | plain (float64 l) => Some l
  | _ => None
  end.

(** The numeric columns, in table order: [data[numeric_columns]] as a
    float64 matrix. *)
Fixpoint numeric_data (data : Table) : Frame (list float) :=
  match data with
  | [] => []
  | c :: rest =>
      match numeric_array (vals c) with
      | Some a => mkSeries (name c) a :: numeric_data rest
      | None => numeric_data rest
      end
  end.

(** [data.select_dtypes(include=['number']).columns.tolist()] *)
Definition numeric_columns (data : Table) : list string :=
  columns (numeric_data data).

(** The running moments of pandas' [nancorr] (Welford's method). *)
Record moments : Type := mkMoments {
  nobs : nat;
  meanx : float;
  meany : float;
  ssqdm_x : float;
  ssqdm_y : float;
  covxy : float
}.

(** One row: it counts when both values are finite. *)
Definition observe (m : moments) (v : float * float) : moments :=
  let '(vx, vy) := v in
  if is_finite vx && is_finite vy then
    let n := S (nobs m) in
    let dx := (vx - meanx m)%float in
    let dy := (vy - meany m)%float in
    let mx := (meanx m + 1 / float_of_nat n * dx)%float in
    let my := (meany m + 1 / float_of_nat n * dy)%float in
    mkMoments n mx my
      (ssqdm_x m + (vx - mx) * dx)%float
      (ssqdm_y m + (vy - my) * dy)%float
      (covxy m + (vx - mx) * dy)%float
  else m.

(** The moments of two columns after the last row. *)
Definition accumulate (x y : list float) : moments :=
  fold_left observe (combine x y) (mkMoments 0 0 0 0 0 0).

(** Pearson's coefficient of two columns, NaN when no row counts or the
    divisor is zero, and clipped to [-1, 1]. *)
Definition pearson (x y : list float) : float :=
  let m := accumulate x y in
  if Nat.ltb (nobs m) 1 then nan
  else
    let divisor := sqrt (ssqdm_x m * ssqdm_y m)%float in
    if negb (divisor =? 0)%float then
      let val := (covxy m / divisor)%float in
      if (1 <? val)%float then 1%float
      else if (val <? -1)%float then (-1)%float
      else val
    else nan.

(** [DataFrame.corr()]: [nancorr] computes the coefficient of columns
    [xi] and [yi] for [yi <= xi] and stores it at [xi, yi] and at
    [yi, xi]. *)
Definition corr (cols : list (list float)) : list (list float) :=
  let K := length cols in
  map (fun i =>
         map (fun j =>
                pearson (nth (Nat.max i j) cols []) (nth (Nat.min i j) cols []))
             (seq 0 K))
      (seq 0 K).

(** ** Type conversion (lines 141-157) *)

Inductive TargetType : Type :=
| to_string
| to_number
| to_date
| to_category.

Definition target_name (t : TargetType) : string :=
  match t with
  | to_string => "string"
  | to_number => "number"
  | to_date => "date"
  | to_category => "category"
  end.

(** What [pd.to_numeric] reads in one cell of an object array: a float,
    an integer with its value as a float, or a boolean. *)
Inductive numeric : Type :=
| num_float (f : float)
| num_int (z : Z) (f : float)
| num_bool (b : bool).

Definition is_num_float (n : numeric) : bool :=
  match n with num_float _ => true | _ => false end.
Definition is_num_int (n : numeric) : bool :=
  match n with num_int _ _ => true | _ => false end.

Definition floats (n : numeric) : float :=
  match n with
  | num_float f => f
  | num_int _ f => f
  | num_bool b => if b then 1%float else 0%float
  end.

Definition ints (n : numeric) : Z :=
  match n with
  | num_int z _ => z
  | num_bool b => Z.b2z b
  | num_float _ => 0%Z
  end.

Definition bools (n : numeric) : bool :=
  match n with
  | num_bool b => b
  | _ => false
  end.

(** The parts of pandas the conversions rest on and this file does not
    compute: the text Python prints for a float; the number
    [pd.to_numeric] reads in a string, with its integer value when the
    string is an integer literal, or [None] when the string is no number;
    and the parsing of a column as dates, which returns one date (or NaT)
    for every row, or raises. *)
Class Coercions : Type := {
  float_str : float -> string;
  floatify : string -> option (float * option Z);
  to_datetime : values -> raises (list (option Z));
  to_datetime_length :
    forall v l, to_datetime v = inr l -> length l = size v
}.

Section Script.

Context {pd : Coercions}.

Definition pyobj_str (o : pyobj) : string :=
  match o with
  | PStr s => s
  | PFloat f => float_str f
  | PBool b => bool_text b
  end.

(** [Series.astype(str)]: every value becomes its text. *)
Definition astype_str (v : values) : values :=
  object_ (map PStr
             match v with
             | int64 l => map str_Z l
             | float64 l => map float_str l
             | bool_ l => map bool_text l
             | object_ l => map pyobj_str l
             end).

Definition quoted (s : string) : string := chr DQUOTE ++ s ++ chr DQUOTE.

(** One cell in the loop of [lib.maybe_convert_numeric]: the empty string
    is a missing value; an exception carries the position of the cell.
    (For an integer from 2^63 up to 2^64 pandas goes on with a uint64
    array, a dtype this model has not; the model raises for every integer
    outside int64.) *)
Definition convert_cell (position : nat) (o : pyobj) : raises numeric :=
  match o with
  | PFloat f => ret (num_float f)
  | PBool b => ret (num_bool b)
  | PStr s =>
      if is_empty s then ret (num_float nan)
      else
        match floatify s with
        | Some (f, Some z) =>
            if in_int64 z then ret (num_int z f)
            else raise ("Integer out of range. at position " ++ str_nat position)
        | Some (f, None) => ret (num_float f)
        | None =>
            raise ("Unable to parse string " ++ quoted s
                   ++ " at position " ++ str_nat position)
        end
  end.

Fixpoint convert_cells (position : nat) (l : list pyobj) : raises (list numeric) :=
  match l with
  | [] => ret []
  | o :: l' =>
      n <- convert_cell position o ;;
      ns <- convert_cells (S position) l' ;;
      ret (n :: ns)
  end.

(** [lib.maybe_convert_numeric]: the array is float64 when a cell is a
    float, else int64 when a cell is an integer, else bool. *)
Definition maybe_convert_numeric (l : list pyobj) : raises values :=
  ns <- convert_cells 0 l ;;
  ret (if existsb is_num_float ns then float64 (map floats ns)
       else if existsb is_num_int ns then int64 (map ints ns)
       else match ns with
            | [] => int64 []
            | _ => bool_ (map bools ns)
            end).

(** [pd.to_numeric]: an array of a numeric dtype (bool counts as one
    here) is returned as it is, an object array is parsed. *)
Definition to_numeric (v : values) : raises values :=
  match v with
  | object_ l => maybe_convert_numeric l
  | _ => ret v
  end.

(** The right-hand sides of lines 148, 150, 152 and 154. *)
Definition convert (target : TargetType) (v : values) : raises column :=
  match target with
  | to_string => ret (plain (astype_str v))
  | to_number => n <- to_numeric v ;; ret (plain n)
  | to_date => d <- to_datetime v ;; ret (datetime64 d)
  | to_category => ret (category v)
  end.

(** The "Convert" button (lines 145-157): the assignment to the column runs
    after the conversion returned; an exception is caught and shown. *)
Definition convert_column_types (col_to_convert : string) (target_type : TargetType)
    (data : DataFrame) : Table * message :=
  match (v <- getitem data col_to_convert ;; convert target_type v) with
  | inr c =>
      (setitem (lift data) col_to_convert c,
       success ("Converted " ++ col_to_convert ++ " to " ++ target_name target_type ++ "!"))
  | inl e => (lift data, error ("Error converting column: " ++ e))
  end.

End Script.

(** ** Column selection (lines 160-167) *)

(** [data[selected_cols]]: the named columns in the order of the list. *)
Definition getitem_list (data : Table) (cols : list string) : raises Table :=
  traverse (fun col => v <- getitem data col ;; ret (mkSeries col v)) cols.

(** The "Filter Columns" button: an empty list is falsy in Python. *)
Definition filter_columns (selected_cols : list string) (data : Table)
    : raises (Table * message) :=
  match selected_cols with
  | _ :: _ =>
      data' <- getitem_list data selected_cols ;;
      ret (data', success ("Kept " ++ str_nat (length selected_cols)
                           ++ " columns in your dataset!"))
  | [] => ret (data, warning "Please select at least one column.")
  end.

(** ** Visualization (lines 170-242) *)

Inductive ChartType : Type :=
| BarChart
| LineChart
| ScatterPlot
| Histogram
| BoxPlot
| CorrelationMatrix.

(** What is handed to the plotting library: a pandas plot of the chosen
    axes (drawn, or refused with an exception that the script catches, by
    the library), or the matrix shown by [matshow] with its tick labels. *)
Inductive figure : Type :=
| pandas_plot (kind : ChartType) (x : string) (y : option string)
| matshow (labels : list string) (corr_data : list (list float)).

Definition needs_y (kind : ChartType) : bool :=
  match kind with
  | BarChart | LineChart | ScatterPlot => true
  | _ => false
  end.

(** The "Generate Visualization" button (lines 190-240). *)
Definition generate (chart_type : ChartType) (x_axis y_axis : string)
    (data : Table) : figure :=
  match chart_type with
  | CorrelationMatrix =>
      let numeric := numeric_data data in
      matshow (columns numeric) (corr (map vals numeric))
  | kind => pandas_plot kind x_axis (if needs_y kind then Some y_axis else None)
  end.

(** The section as a whole: the chart controls exist when the table has at
    least one numeric column, otherwise the page shows a warning. *)
Definition visualization (chart_type : ChartType) (x_axis y_axis : string)
    (button : bool) (data : Table) : option figure * list message :=
  if Nat.leb 1 (length (numeric_columns data)) then
    if button then (Some (generate chart_type x_axis y_axis data), [])
    else (None, [])
  else (None, [warning "Your dataset needs numeric columns for visualization."]).

(** ** Export (lines 245-278) *)

Inductive ExportFormat : Type :=
| CSV
| Excel.

Inductive payload : Type :=
| csv_data (text : string)
| workbook (sheet_name : string) (data : Table).   (* written by openpyxl *)

Record download : Type := mkDownload {
  label : string;
  file_data : payload;
  download_name : string;
  mime : string
}.

(** The "Export Data" button; [None] when the CSV text is outside the
    model. *)
Definition export_data (export_format : ExportFormat) (filename : string)
    (data : Table) : option (download * message) :=
  match export_format with
  | CSV =>
      match to_csv data with
      | Some text =>
          Some (mkDownload "Download CSV" (csv_data text) (filename ++ ".csv") "text/csv",
                success "CSV file ready for download!")
      | None => None
      end
  | Excel =>
      Some (mkDownload "Download Excel" (workbook "Processed_Data" data)
              (filename ++ ".xlsx")
              "application/vnd.openxmlformats-officedocument.spreadsheetml.sheet",
            success "Excel file ready for download!")
  end.

(** ** One run of the script *)

(** The buttons of the page.  A button is true in the run its click starts
    and false in every other run, so at most one is pressed in a run. *)
Inductive Button : Type :=
| FillMissingValues
| Convert
| FilterColumns
| GenerateVisualization
| ExportData.

Definition Button_eqb (a b : Button) : bool :=
  match a, b with
  | FillMissingValues, FillMissingValues
  | Convert, Convert
  | FilterColumns, FilterColumns
  | GenerateVisualization, GenerateVisualization
  | ExportData, ExportData => true
  | _, _ => false
  end.

(** The state of the widgets during the run. *)
Record Widgets : Type := mkWidgets {
  remove_duplicates_box : bool;      (* "Remove Duplicate Rows" *)
  handle_missing_box : bool;         (* "Handle Missing Values" *)
  missing_method : MissingMethod;
  fill_value : string;
  convert_box : bool;                (* "Convert Column Data Types" *)
  col_to_convert : string;
  target_type : TargetType;
  select_box : bool;                 (* "Select Columns to Keep" *)
  selected_cols : list string;
  chart_type : ChartType;
  x_axis : string;
  y_axis : string;
  export_format : ExportFormat;
  filename : string;
  clicked : option Button
}.

(** [st.button(...)] *)
Definition button (ui : Widgets) (b : Button) : bool :=
  match clicked ui with
  | Some b' => Button_eqb b b'
  | None => false
  end.

Record Page : Type := mkPage {
  messages : list message;
  information : list ColumnInfo;
  chart : option figure;
  offered : option download;
  working_table : Table
}.

(** Lines 96-137. *)
Definition cleaning_left (ui : Widgets) (data : DataFrame)
    : raises (DataFrame * list message) :=
  let step1 :=
    if remove_duplicates_box ui
    then let (d, m) := remove_duplicate_rows data in (d, [m])
    else (data, []) in
  let (data1, shown) := step1 in
  if handle_missing_box ui then
    match missing_method ui with
    | DropRows =>
        let (d, m) := drop_missing_rows data1 in ret (d, shown ++ [m])
    | FillMean =>
        r <- fill_numeric_with_mean data1 ;;
        ret (fst r, shown ++ [snd r])
    | FillCustom =>
        let (d, ms) := fill_custom_value (fill_value ui) (button ui FillMissingValues) data1 in
        ret (d, shown ++ ms)
    end
  else ret (data1, shown).

Section Run.

Context {pd : Coercions}.

(** Lines 139-167. *)
Definition cleaning_right (ui : Widgets) (data : DataFrame)
    : raises (Table * list message) :=
  let step1 :=
    if convert_box ui && button ui Convert
    then let (t, m) := convert_column_types (col_to_convert ui) (target_type ui) data in
         (t, [m])
    else (lift data, []) in
  let (data1, shown) := step1 in
  if select_box ui && button ui FilterColumns then
    r <- filter_columns (selected_cols ui) data1 ;;
    ret (fst r, shown ++ [snd r])
  else ret (data1, shown).

(** The script from line 65 on.  The outer [None] marks an input outside
    the model; [raise] is an exception that no [try] catches. *)
Definition run (ui : Widgets) (uploaded_file : option UploadedFile)
    : option (raises (option Page)) :=
  match uploaded_file with
  | None => Some (ret None)
  | Some file =>
      match load_data file with
      | None => None
      | Some (None, shown) => Some (ret (Some (mkPage shown [] None None [])))
      | Some (Some data, shown) =>
          let loaded := [success ("Successfully loaded file: " ++ file_name file)] in
          let information := col_types data in
          match (l <- cleaning_left ui data ;;
                 r <- cleaning_right ui (fst l) ;;
                 ret (fst r, snd l ++ snd r)) with
          | inl e => Some (raise e)
          | inr (table, cleaned) =>
              let (fig, charted) :=
                visualization (chart_type ui) (x_axis ui) (y_axis ui)
                  (button ui GenerateVisualization) table in
              if button ui ExportData then
                match export_data (export_format ui) (filename ui) table with
                | None => None
                | Some (d, m) =>
                    Some (ret (Some (mkPage (shown ++ loaded ++ cleaned ++ charted ++ [m])
                                       information fig (Some d) table)))
                end
              else
                Some (ret (Some (mkPage (shown ++ loaded ++ cleaned ++ charted)
                                   information fig None table)))
          end
      end
  end.

End Run.

(** ** The values of a column, one by one *)

(** A value as Python sees it when it reads one cell. *)
Inductive scalar : Type :=
| SInt (z : Z)
| SFloat (f : float)
| SBool (b : bool)
| SStr (s : string).

Definition pyobj_scalar (o : pyobj) : scalar :=
  match o with
  | PStr s => SStr s
  | PFloat f => SFloat f
  | PBool b => SBool b
  end.

Definition cells (v : values) : list scalar :=
  match v with
  | int64 l => map SInt l
  | float64 l => map SFloat l
  | bool_ l => map SBool l
  | object_ l => map pyobj_scalar l
  end.

(** [pd.isnull(x)] *)
Definition scalar_isnull (x : scalar) : bool :=
  match x with
  | SFloat f => is_nan f
  | _ => false
  end.

(** The rows of the table as Python values, one list per row. *)
Definition value_rows (data : DataFrame) : list (list scalar) :=
  transpose (SInt 0) (len data) (map (fun c => cells (vals c)) data).

(** ** The mean fill, column by column *)

(** What "Fill numeric columns with mean" is to do to one column: in a
    float column every missing value becomes the mean of the values that
    are not missing; an integer column holds no missing value, and a column
    that is not numeric is not touched. *)
Definition filled_with_mean (v : values) : values :=
  match v with
  | float64 l => float64 (map (fun f => if is_nan f then nanmean l else f) l)
  | _ => v
  end.

(** ** Tables that survive the export *)

(** A field that is written as it is and read back as one field. *)
Definition plain_field (s : string) : bool :=
  negb (is_empty s) && negb (is_blank s)
  && negb (contains COMMA s || contains DQUOTE s || contains LF s || contains CR s).

(** A column name that the header row gives back: not empty (pandas
    names such a column itself), not blank space only, and without a
    carriage return. *)
Definition header_name (s : string) : bool :=
  negb (is_empty s) && negb (is_blank s) && negb (contains CR s).


Definition is_text (o : pyobj) : bool :=
  match o with
  | PStr _ => true
  | _ => false
  end.


(** The field written for a float and for a cell of an object column,
    empty where the text is outside the model. *)
Definition float_field (f : float) : string :=
  match float_text f with
  | Some s => s
  | None => EmptyString
  end.



(** A field that is written as it is and that [read_csv] reads as a
    value of some kind. *)
Definition readable_field (s : string) : bool :=
  plain_field s
  && match classify s with
     | Some _ => true
     | None => false
     end.

(** The columns whose text the CSV model can write and read back, whatever
    the dtype they are read back with. *)
Definition exportable (c : column) : bool :=
  match column_text c with
  | Some fields => forallb readable_field fields
  | None => false
  end.

(** ** What a conversion promises *)

(** [pandas.api.types.is_numeric_dtype]: integers, floats and booleans. *)
Definition is_numeric_dtype (v : values) : bool :=
  match v with
  | object_ _ => false
  | _ => true
  end.

(** The column holds values of the target type: an object array of
    strings, an array of a numeric dtype, a datetime64 array, a
    categorical. *)
Definition has_type (target : TargetType) (c : column) : bool :=
  match target, c with
  | to_string, plain (object_ l) => forallb is_text l
  | to_number, plain v => is_numeric_dtype v
  | to_date, datetime64 _ => true
  | to_category, category _ => true
  | _, _ => false
  end.

Section Promise.

Context {pd : Coercions}.

(** [str(x)] *)
Definition scalar_str (x : scalar) : string :=
  match x with
  | SInt z => str_Z z
  | SFloat f => float_str f
  | SBool b => bool_text b
  | SStr s => s
  end.

(** [y] is the number in the cell [x]: the number itself; for a string
    the number read in it, NaN for the empty string; a boolean stays one or
    counts as 1 or 0 when the column holds other numbers. *)
Definition reads_number (x y : scalar) : Prop :=
  match x with
  | SInt z => y = SInt z
  | SFloat f => y = SFloat f
  | SBool b =>
      y = SBool b \/ y = SInt (Z.b2z b)
      \/ y = SFloat (if b then 1%float else 0%float)
  | SStr s =>
      if is_empty s then y = SFloat nan
      else exists f zi,
          floatify s = Some (f, zi)
          /\ (y = SFloat f
              \/ exists z, zi = Some z /\ in_int64 z = true /\ y = SInt z)
  end.

(** Every value of the column [v] is coerced to the target type in the
    column [c]: row by row, [c] holds the text of the value, the number in
    it, a date, or the value itself as a category. *)
Definition coerced (target : TargetType) (v : values) (c : column) : Prop :=
  match target with
  | to_string =>
      c = plain (object_ (map (fun x => PStr (scalar_str x)) (cells v)))
  | to_number =>
      exists v',
        c = plain v'
        /\ is_numeric_dtype v' = true
        /\ Forall2 reads_number (cells v) (cells v')
  | to_date => exists l, c = datetime64 l /\ length l = size v
  | to_category => c = category v
  end.


End Promise.

(** ** The diagonal of the correlation matrix *)

(** The sum of the squared deviations of a column from its mean, as
    [nancorr] has it after the last row when it correlates the column with
    itself. *)
Definition squared_deviations (x : list float) : float :=
  ssqdm_x (accumulate x x).

(** ** Example tables *)

(** The table of a CSV file that has a header and no row. *)
Definition header_only : DataFrame :=
  [mkSeries "a" (object_ []); mkSeries "b" (object_ [])].

(** A numeric column with a missing value next to a text column. *)
Definition scores : DataFrame :=
  [mkSeries "city" (object_ [PStr "Oslo"; PStr "Rome"]);
   mkSeries "score" (float64 [1.5%float; nan])].

(** The CSV text of the cleaning scenario: a header and three rows, the
    last without a value for [b]. *)
Definition scenario_csv : string :=
  "a,b" ++ chr LF ++ "1,2" ++ chr LF ++ "1,2" ++ chr LF ++ "3,".

Definition scenario_table : DataFrame :=
  [mkSeries "a" (int64 [1; 1; 3]%Z);
   mkSeries "b" (float64 [2%float; 2%float; nan])].

(** The widgets of the scenario: both cleaning boxes ticked, rows with
    missing values dropped, no button pressed. *)
Definition scenario_widgets : Widgets :=
  mkWidgets true true DropRows "0" false EmptyString to_string false []
    BarChart "a" "a" CSV "processed_data" None.


(** A numeric column [x = [1, NaN, 3]] next to a text column. *)
Definition mean_example : DataFrame :=
  [mkSeries "x" (float64 [1%float; nan; 3%float]);
   mkSeries "note" (object_ [PStr "p"; PFloat nan; PStr "q"])].

(** A table with exactly one numeric column. *)
Definition one_numeric : Table :=
  [mkSeries "city" (plain (object_ [PStr "Oslo"; PStr "Rome"; PStr "Bern"]));
   mkSeries "score" (plain (float64 [1%float; 2%float; 3%float]))].

(** A table with two numeric columns around a text column. *)
Definition two_numeric : Table :=
  [mkSeries "x" (plain (int64 [1; 2; 3]%Z));
   mkSeries "label" (plain (object_ [PStr "p"; PStr "q"; PStr "r"]));
   mkSeries "y" (plain (float64 [2%float; 4%float; 7%float]))].

(** A numeric column of two large, different values. *)
Definition large_values : Table :=
  [mkSeries "x" (plain (float64 [0%float; 0x1p400%float]))].

(** A CSV file whose column [a] is text because of its last row, and the
    widgets of a run that drops that row and exports the table. *)
Definition digits_csv : string :=
  "a,b" ++ chr LF ++ "1,p" ++ chr LF ++ "2,q" ++ chr LF ++ "x," ++ chr LF.

Definition digits_widgets : Widgets :=
  mkWidgets false true DropRows "0" false EmptyString to_string false []
    BarChart "a" "a" CSV "processed_data" (Some ExportData).

(** The table that run exports: two rows, the digits of [a] are text. *)
Definition digits_table : Table :=
  [mkSeries "a" (plain (object_ [PStr "1"; PStr "2"]));
   mkSeries "b" (plain (object_ [PStr "p"; PStr "q"]))].




(** An instance of the conversions in which every parser refuses its
    input.  The properties below hold for every instance; this one serves to
    evaluate them on tables whose conversion calls no parser. *)
Definition refusing_parsers : Coercions.
Proof.
  refine {| float_str := fun _ => "nan";
            floatify := fun _ => None;
            to_datetime := fun _ => raise "ValueError" |}.
  intros v l H. discriminate H.
Defined.

(** An instance that reads a number in a string as the CSV reader above
    reads a field; it serves to evaluate conversions of text columns. *)
Definition reader_parsers : Coercions.
Proof.
  refine {| float_str := float_field;
            floatify := fun s =>
              match classify s with
              | Some (TInt z) => Some (float_of_Z z, Some z)
              | Some (TFloat f) => Some (f, None)
              | _ => None
              end;
            to_datetime := fun _ => raise "ValueError" |}.
  intros v l H. discriminate H.
Defined.

(** A text column of numbers and an empty string, and one with a string
    that is no number. *)
Definition amounts : DataFrame :=
  [mkSeries "amount" (object_ [PStr "1"; PStr "2.5"; PStr EmptyString])].

Definition sizes : DataFrame :=
  [mkSeries "size" (object_ [PStr "1"; PStr "large"])].

(** * Properties *)

(** ** Facts of binary64 arithmetic *)

Lemma is_nan_Prim2SF (f : float) : is_nan f = true <-> Prim2SF f = S754_nan.
Proof.
  unfold is_nan. rewrite eqb_spec.
  destruct (Prim2SF f) as [s|s| |s m e]; cbn; split; try discriminate; try reflexivity.
  - destruct s; discriminate.
  - unfold SFeqb, SFcompare. rewrite Z.compare_refl, Pos.compare_cont_refl.
    destruct s; discriminate.
Qed.

(** All NaN are one value. *)
Lemma is_nan_eq (f : float) : is_nan f = true -> f = nan.
Proof.
  intros H. apply is_nan_Prim2SF in H. apply Prim2SF_inj. rewrite H. reflexivity.
Qed.








(** The depth given to [pairwise_sum] is never used up: any depth that
    allows a cut per 57 values beyond the first 128 gives the same sum. *)
Lemma pairwise_sum_depth (d1 d2 : nat) (a : list float) :
  length a <= 128 + 57 * d1 -> length a <= 128 + 57 * d2 ->
  pairwise_sum d1 a = pairwise_sum d2 a.
Proof.
  revert d2 a. induction d1 as [|d1 IH]; intros d2 a H1 H2.
  - assert (Nat.leb (length a) 128 = true) as Hle by (apply Nat.leb_le; lia).
    destruct d2; cbn [pairwise_sum]; rewrite Hle; reflexivity.
  - destruct (Nat.leb (length a) 128) eqn:Hle.
    + destruct d2; cbn [pairwise_sum]; rewrite Hle; reflexivity.
    + apply Nat.leb_gt in Hle.
      destruct d2 as [|d2]; [lia|].
      cbn [pairwise_sum].
      assert (Nat.leb (length a) 128 = false) as -> by (apply Nat.leb_gt; exact Hle).
      set (n2 := length a / 2 - (length a / 2) mod 8).
      assert (57 <= n2 /\ n2 <= length a / 2 /\ length a / 2 <= length a - 65) as Hn2.
      { unfold n2.
        pose proof (Nat.mod_upper_bound (length a / 2) 8).
        pose proof (Nat.div_mod_eq (length a) 2).
        pose proof (Nat.mod_upper_bound (length a) 2). lia. }
      f_equal; apply IH.
      * rewrite length_firstn. lia.
      * rewrite length_firstn. lia.
      * rewrite length_skipn. lia.
      * rewrite length_skipn. lia.
Qed.

Lemma finite_Prim2SF (x : float) :
  is_finite x = true -> is_zero x = false ->
  exists s m e, Prim2SF x = S754_finite s m e.
Proof.
  unfold is_finite, is_zero, is_infinity. intros Hfin Hzero.
  apply negb_true_iff, orb_false_iff in Hfin. destruct Hfin as [Hnan Hinf].
  rewrite eqb_spec in Hzero, Hinf. rewrite abs_spec in Hinf.
  destruct (Prim2SF x) as [s|s| |s m e] eqn:Hx.
  - discriminate Hzero.
  - discriminate Hinf.
  - apply is_nan_Prim2SF in Hx. congruence.
  - exists s, m, e. reflexivity.
Qed.

(** A finite float that is not zero, divided by itself, is 1. *)
Lemma div_self (x : float) :
  is_finite x = true -> is_zero x = false -> (x / x)%float = 1%float.
Proof.
  intros Hfin Hzero. destruct (finite_Prim2SF x Hfin Hzero) as [s [m [e Hx]]].
  apply Prim2SF_inj. rewrite div_spec, Hx.
  unfold SF64div, SFdiv, SFdiv_core_binary.
  replace (Z.sub (Z.add (Zdigits2 (Zpos m)) e) (Z.add (Zdigits2 (Zpos m)) e)) with 0%Z by lia.
  replace (Z.sub e e) with 0%Z by lia.
  change (Z.min (fexp prec emax 0) 0) with (-53)%Z.
  change (Z.sub 0 (-53)) with 53%Z. cbv iota.
  rewrite Z.shiftl_mul_pow2 by lia.
  pose proof (Z.div_eucl_eq (Zpos m * 2 ^ 53) (Zpos m) ltac:(lia)) as Heq.
  pose proof (Z.mod_mul (2 ^ 53) (Zpos m) ltac:(lia)) as Hmod.
  pose proof (Z.div_mul (2 ^ 53) (Zpos m) ltac:(lia)) as Hdiv.
  rewrite (Z.mul_comm (Zpos m)).
  unfold Z.modulo, Z.div in Hmod, Hdiv.
  destruct (Z.div_eucl (2 ^ 53 * Zpos m) (Zpos m)) as [q r].
  cbn [fst snd] in Hmod, Hdiv. subst q r.
  assert (new_location (Zpos m) 0 = loc_Exact) as ->.
  { unfold new_location. destruct (Z.even (Zpos m)); reflexivity. }
  destruct s; vm_compute; reflexivity.
Qed.

(** ** Dataset information *)

Lemma count_true_nil_size (v : values) :
  size v = 0 -> count_true (isnull v) = 0.
Proof.
  destruct v as [l|l|l|l]; simpl; intros H;
    apply length_zero_iff_nil in H; subst l; reflexivity.
Qed.

(** C8. For a table without rows, the information panel has one line for
    every column of the table, in table order, and on every line the
    "Missing %" is NaN, not a finite number: the missing count 0 is divided
    by the row count 0, and nothing guards the division. *)
Theorem missing_pct_of_empty_table_is_nan (data : DataFrame) :
  rectangular data ->
  len data = 0 ->
  Forall2 (fun c i => column_name i = name c
                      /\ missing_values i = 0
                      /\ is_nan (missing_pct i) = true
                      /\ is_finite (missing_pct i) = false)
          data (col_types data).
Proof.
  intros Hrect Hlen. unfold col_types, rectangular in *. rewrite Hlen in *.
  clear Hlen. induction Hrect as [|c data Hc _ IH]; [constructor|].
  cbn [map]. constructor; [|exact IH].
  cbn [column_name missing_values missing_pct].
  rewrite (count_true_nil_size _ Hc).
  repeat split; vm_compute; reflexivity.
Qed.

Lemma missing_pct_of_empty_table_is_nan_witness :
  Forall2 (fun c i => column_name i = name c
                      /\ missing_values i = 0
                      /\ is_nan (missing_pct i) = true
                      /\ is_finite (missing_pct i) = false)
          header_only (col_types header_only).
Proof.
  apply (missing_pct_of_empty_table_is_nan header_only).
  - repeat constructor.
  - reflexivity.
Defined.

(** ** Filling with a custom value *)

Lemma any_false_iff (m : list bool) :
  any m = false <-> count_true m = 0.
Proof.
  unfold any, count_true. induction m as [|b m IH]; simpl.
  - tauto.
  - destruct b; simpl.
    + split; discriminate.
    + exact IH.
Qed.

Lemma fillna_str_cells (value : string) (v : values) :
  cells (fillna_str value v)
  = map (fun x => if scalar_isnull x then SStr value else x) (cells v).
Proof.
  destruct v as [l|l|l|l]; simpl.
  - rewrite map_map. apply map_ext. reflexivity.
  - destruct (any (map is_nan l)) eqn:Hany; simpl.
    + rewrite !map_map. apply map_ext. intros f. simpl.
      destruct (is_nan f); reflexivity.
    + rewrite map_map. apply map_ext_in. intros f Hf. simpl.
      destruct (is_nan f) eqn:Hnan; [|reflexivity].
      exfalso. unfold any in Hany.
      assert (existsb id (map is_nan l) = true) as Hex.
      { apply existsb_exists. exists true. split; [|reflexivity].
        apply in_map_iff. exists f. tauto. }
      congruence.
  - rewrite map_map. apply map_ext. reflexivity.
  - rewrite !map_map. apply map_ext. intros [s|f|b]; simpl; try reflexivity.
    destruct (is_nan f); reflexivity.
Qed.

Lemma isnull_cells (v : values) : isnull v = map scalar_isnull (cells v).
Proof.
  destruct v as [l|l|l|l]; simpl; rewrite map_map; try reflexivity.
  apply map_ext. intros [s|f|b]; reflexivity.
Qed.

Lemma fillna_str_no_null (value : string) (v : values) :
  count_true (isnull (fillna_str value v)) = 0.
Proof.
  apply any_false_iff. rewrite isnull_cells, fillna_str_cells, map_map.
  unfold any. induction (cells v) as [|x l IH]; simpl; [reflexivity|].
  rewrite IH. destruct (scalar_isnull x) eqn:Hx; simpl; [reflexivity|].
  rewrite Hx. reflexivity.
Qed.

(** C6. "Fill with custom value" leaves no missing value: in every column,
    every missing value is replaced by the text typed in, as a string, and
    every other value is kept.  This holds for every fill value (the empty
    text included). *)
Theorem fill_custom_value_leaves_no_missing (value : string) (data : DataFrame) :
  let data' := fst (fill_custom_value value true data) in
  Forall2 (fun c c' =>
             name c' = name c
             /\ cells (vals c')
                = map (fun x => if scalar_isnull x then SStr value else x)
                      (cells (vals c)))
          data data'
  /\ Forall (fun c' => count_true (isnull (vals c')) = 0) data'
  /\ count_true (isnull_any_row data') = 0.
Proof.
  cbn [fill_custom_value fst]. unfold fillna.
  split; [|split].
  - induction data as [|c data IH]; simpl; constructor; [|exact IH].
    split; [reflexivity|apply fillna_str_cells].
  - apply Forall_forall. intros c' Hc'.
    apply in_map_iff in Hc'. destruct Hc' as [c [<- _]].
    apply fillna_str_no_null.
  - unfold isnull_any_row.
    set (data' := map (fun c => mkSeries (name c) (fillna_str value (vals c))) data).
    assert (Forall (fun m => any m = false) (map (fun c => isnull (vals c)) data')) as Hcols.
    { apply Forall_forall. intros m Hm. apply in_map_iff in Hm.
      destruct Hm as [c' [<- Hc']]. unfold data' in Hc'.
      apply in_map_iff in Hc'. destruct Hc' as [c [<- _]].
      apply any_false_iff. apply fillna_str_no_null. }
    generalize (len data').
    revert Hcols. generalize (map (fun c => isnull (vals c)) data').
    intros cols Hcols n. revert cols Hcols.
    induction n as [|n IH]; intros cols Hcols; [reflexivity|].
    cbn [transpose map]. unfold count_true. cbn [filter].
    assert (any (map (hd false) cols) = false) as Hhd.
    { unfold any. clear IH. induction Hcols as [|m cols Hm _ IHc]; [reflexivity|].
      simpl. rewrite IHc. destruct m as [|b m]; [reflexivity|].
      simpl in *. unfold any in Hm. simpl in Hm.
      destruct b; [discriminate|reflexivity]. }
    rewrite Hhd. cbn [id]. apply IH.
    clear IH Hhd. induction Hcols as [|m cols Hm _ IHc]; constructor; [|exact IHc].
    destruct m as [|b m]; [reflexivity|].
    unfold any in *. simpl in *. destruct b; [discriminate|exact Hm].
Qed.

(** ** Columns by name *)

Lemma getitem_in_columns {V} (data : Frame V) (col : string) (v : V) :
  getitem data col = ret v -> In col (columns data).
Proof.
  unfold getitem. induction data as [|c data IH]; simpl; [discriminate|].
  destruct (String.eqb_spec (name c) col) as [Heq|Hne].
  - intros _. left. exact Heq.
  - intros H. right. apply IH. exact H.
Qed.

Lemma in_columns_getitem {V} (data : Frame V) (col : string) :
  In col (columns data) -> exists v, getitem data col = ret v.
Proof.
  unfold getitem. induction data as [|c data IH]; simpl; [tauto|].
  destruct (String.eqb_spec (name c) col) as [Heq|Hne].
  - intros _. exists (vals c). reflexivity.
  - intros [H|H]; [contradiction|]. apply IH. exact H.
Qed.

Lemma getitem_unique {V} (data : Frame V) (c : Series V) :
  NoDup (columns data) -> In c data -> getitem data (name c) = ret (vals c).
Proof.
  unfold getitem. induction data as [|c0 data IH]; simpl; [tauto|].
  intros Hnd Hin. inversion Hnd as [|? ? Hnotin Hnd']; subst.
  destruct Hin as [->|Hin].
  - rewrite String.eqb_refl. reflexivity.
  - destruct (String.eqb_spec (name c0) (name c)) as [Heq|Hne].
    + exfalso. apply Hnotin. rewrite Heq. apply in_map. exact Hin.
    + apply IH; assumption.
Qed.




Lemma columns_lift (data : DataFrame) : columns (lift data) = columns data.
Proof.
  unfold columns, lift. rewrite map_map. reflexivity.
Qed.

Lemma same_name_same_column {V} (data : Frame V) (c c' : Series V) :
  NoDup (columns data) -> In c data -> In c' data -> name c = name c' -> c = c'.
Proof.
  induction data as [|c0 data IH]; simpl; [tauto|].
  intros Hnd Hc Hc' Hname. inversion Hnd as [|? ? Hnotin Hnd']; subst.
  destruct Hc as [->|Hc], Hc' as [->|Hc'].
  - reflexivity.
  - exfalso. apply Hnotin. rewrite Hname. apply in_map. exact Hc'.
  - exfalso. apply Hnotin. rewrite <- Hname. apply in_map. exact Hc.
  - apply IH; assumption.
Qed.

(** ** The fill value is text *)

Lemma is_number_fillna_str (value : string) (v : values) :
  is_number (fillna_str value v) = true -> is_number v = true.
Proof.
  destruct v as [l|l|l|l]; simpl; try tauto.
Qed.

Lemma in_select_dtypes_number (data : DataFrame) (col : string) :
  In col (select_dtypes_number data)
  <-> exists c, In c data /\ name c = col /\ is_number (vals c) = true.
Proof.
  unfold select_dtypes_number, columns. rewrite in_map_iff.
  split.
  - intros [c [Hname Hc]]. apply filter_In in Hc. exists c. tauto.
  - intros [c [Hc [Hname Hnum]]]. exists c. split; [exact Hname|].
    apply filter_In. tauto.
Qed.

(** C9. The fill value comes from a text input, so it is a string.  A
    numeric column that holds a missing value therefore becomes an object
    column when "Fill with custom value" runs: it leaves the set of numeric
    columns that the mean fill and the charts select from, and that set
    never gains a column. *)
Theorem fill_custom_value_drops_numeric_column
    (value : string) (data : DataFrame) (c : Series values) :
  NoDup (columns data) ->
  In c data ->
  is_number (vals c) = true ->
  any (isnull (vals c)) = true ->
  let data' := fst (fill_custom_value value true data) in
  In (name c) (select_dtypes_number data)
  /\ getitem data' (name c) = ret (fillna_str value (vals c))
  /\ dtype (fillna_str value (vals c)) = "object"
  /\ ~ In (name c) (select_dtypes_number data')
  /\ incl (select_dtypes_number data') (select_dtypes_number data)
  /\ incl (numeric_columns (lift data')) (numeric_columns (lift data)).
Proof.
  intros Hnd Hc Hnum Hnull. cbn [fill_custom_value fst].
  assert (columns (fillna value data) = columns data) as Hcols.
  { unfold fillna, columns. rewrite map_map. reflexivity. }
  assert (is_number (fillna_str value (vals c)) = false) as Hobj.
  { destruct (vals c) as [l|l|l|l]; simpl in *; try discriminate.
    - exfalso. clear -Hnull. unfold any in Hnull.
      induction l as [|z l IH]; simpl in Hnull; [discriminate|auto].
    - rewrite Hnull. reflexivity. }
  assert (incl (select_dtypes_number (fillna value data)) (select_dtypes_number data)) as Hincl.
  { intros col Hcol. apply in_select_dtypes_number in Hcol.
    destruct Hcol as [c' [Hc' [Hname Hn]]].
    unfold fillna in Hc'. apply in_map_iff in Hc'.
    destruct Hc' as [c0 [<- Hc0]]. simpl in *.
    apply in_select_dtypes_number. exists c0.
    split; [exact Hc0|]. split; [exact Hname|].
    apply is_number_fillna_str with value. exact Hn. }
  assert (forall d : DataFrame, numeric_columns (lift d) = select_dtypes_number d) as Hsame.
  { intros d. unfold numeric_columns, select_dtypes_number, columns.
    induction d as [|c0 d IH]; simpl; [reflexivity|].
    destruct (vals c0) as [l|l|l|l]; simpl; rewrite ?IH; reflexivity. }
  split; [|split; [|split; [|split; [|split]]]].
  - apply in_select_dtypes_number. exists c. tauto.
  - set (c' := mkSeries (name c) (fillna_str value (vals c))).
    change (getitem (fillna value data) (name c') = ret (vals c')).
    apply getitem_unique.
    + rewrite Hcols. exact Hnd.
    + unfold fillna. apply in_map_iff. exists c. split; [reflexivity|exact Hc].
  - destruct (vals c) as [l|l|l|l]; simpl in *; try discriminate.
    rewrite Hnull. reflexivity.
  - intros Hin. apply in_select_dtypes_number in Hin.
    destruct Hin as [c' [Hc' [Hname Hn]]].
    unfold fillna in Hc'. apply in_map_iff in Hc'.
    destruct Hc' as [c0 [<- Hc0]]. simpl in *.
    assert (c0 = c) as ->.
    { apply same_name_same_column with data; assumption. }
    congruence.
  - exact Hincl.
  - rewrite !Hsame. exact Hincl.
Qed.

Lemma fill_custom_value_drops_numeric_column_witness :
  In "score" (select_dtypes_number scores)
  /\ ~ In "score" (select_dtypes_number (fst (fill_custom_value "0" true scores))).
Proof.
  pose proof (fill_custom_value_drops_numeric_column "0" scores
                (mkSeries "score" (float64 [1.5%float; nan]))) as H.
  cbn zeta in H.
  destruct H as [H1 [_ [_ [H4 _]]]].
  - repeat constructor; simpl; intuition discriminate.
  - right. left. reflexivity.
  - reflexivity.
  - vm_compute. reflexivity.
  - split; [exact H1|exact H4].
Defined.

(** ** Column selection *)

Lemma getitem_list_ok (data : Table) (cols : list string) :
  (forall col, In col cols -> In col (columns data)) ->
  exists data',
    getitem_list data cols = ret data'
    /\ columns data' = cols
    /\ Forall (fun c => getitem data (name c) = ret (vals c)) data'.
Proof.
  unfold getitem_list.
  induction cols as [|col cols IH]; intros Hin.
  - exists []. simpl. repeat split. constructor.
  - destruct IH as [rest [Hrest [Hcols Hall]]].
    { intros c Hc. apply Hin. right. exact Hc. }
    destruct (in_columns_getitem data col) as [v Hv].
    { apply Hin. left. reflexivity. }
    exists (mkSeries col v :: rest). cbn [traverse].
    rewrite Hv. cbn [bind ret]. rewrite Hrest. cbn [bind ret].
    split; [reflexivity|]. split.
    + simpl. rewrite Hcols. reflexivity.
    + constructor; [exact Hv|exact Hall].
Qed.

(** C10. "Filter Columns" with nothing selected leaves the table as it
    is and shows a warning, not an error; with a selection of existing
    columns the table becomes exactly the selected columns, in the order
    of the selection, each with the values it had. *)
Theorem filter_columns_keeps_selection (selected_cols : list string) (data : Table) :
  (forall col, In col selected_cols -> In col (columns data)) ->
  match selected_cols with
  | [] =>
      filter_columns selected_cols data
      = ret (data, warning "Please select at least one column.")
  | _ :: _ =>
      exists data',
        filter_columns selected_cols data
        = ret (data', success ("Kept " ++ str_nat (length selected_cols)
                               ++ " columns in your dataset!"))
        /\ columns data' = selected_cols
        /\ Forall (fun c => getitem data (name c) = ret (vals c)) data'
  end.
Proof.
  intros Hin. destruct selected_cols as [|col cols]; [reflexivity|].
  destruct (getitem_list_ok data (col :: cols) Hin) as [data' [Hget [Hcols Hall]]].
  exists data'. unfold filter_columns. rewrite Hget.
  repeat split; assumption.
Qed.

Lemma filter_columns_keeps_selection_witness :
  exists data',
    filter_columns ["score"; "city"] (lift scores)
    = ret (data', success "Kept 2 columns in your dataset!")
    /\ columns data' = ["score"; "city"]
    /\ Forall (fun c => getitem (lift scores) (name c) = ret (vals c)) data'.
Proof.
  apply (filter_columns_keeps_selection ["score"; "city"] (lift scores)).
  simpl. intuition.
Defined.

(** ** Type conversion *)

Section Conversion.

Context {pd : Coercions}.

(** The cells that [maybe_convert_numeric] has converted, one by one. *)
Lemma convert_cells_inv (l : list pyobj) (position : nat) (ns : list numeric) :
  convert_cells position l = ret ns ->
  Forall2 (fun o n => exists k, convert_cell k o = ret n) l ns.
Proof.
  revert position ns. induction l as [|o l IH]; intros position ns; cbn [convert_cells].
  - intros [= <-]. constructor.
  - destruct (convert_cell position o) as [e|n] eqn:Hn; cbn [bind]; [discriminate|].
    destruct (convert_cells (S position) l) as [e|ns'] eqn:Hns; cbn [bind ret];
      [discriminate|].
    intros [= <-]. constructor; [exists position; exact Hn|].
    apply IH with (S position). exact Hns.
Qed.

Lemma convert_cell_float (k : nat) (o : pyobj) (n : numeric) :
  convert_cell k o = ret n -> reads_number (pyobj_scalar o) (SFloat (floats n)).
Proof.
  destruct o as [s|f|b]; cbn [convert_cell pyobj_scalar reads_number].
  - destruct (is_empty s); [intros [= <-]; reflexivity|].
    destruct (floatify s) as [[f [z|]]|]; try discriminate.
    + destruct (in_int64 z); [|discriminate]. intros [= <-].
      exists f, (Some z). split; [reflexivity|left; reflexivity].
    + intros [= <-]. exists f, None. split; [reflexivity|left; reflexivity].
  - intros [= <-]. reflexivity.
  - intros [= <-]. right. right. reflexivity.
Qed.

Lemma convert_cell_int (k : nat) (o : pyobj) (n : numeric) :
  convert_cell k o = ret n -> is_num_float n = false ->
  reads_number (pyobj_scalar o) (SInt (ints n)).
Proof.
  destruct o as [s|f|b]; cbn [convert_cell pyobj_scalar reads_number].
  - destruct (is_empty s); [intros [= <-]; discriminate|].
    destruct (floatify s) as [[f [z|]]|]; try discriminate.
    + destruct (in_int64 z) eqn:Hz; [|discriminate]. intros [= <-] _.
      exists f, (Some z). split; [reflexivity|].
      right. exists z. repeat split. exact Hz.
    + intros [= <-]. discriminate.
  - intros [= <-]. discriminate.
  - intros [= <-] _. right. left. reflexivity.
Qed.

Lemma convert_cell_bool (k : nat) (o : pyobj) (n : numeric) :
  convert_cell k o = ret n -> is_num_float n = false -> is_num_int n = false ->
  reads_number (pyobj_scalar o) (SBool (bools n)).
Proof.
  destruct o as [s|f|b]; cbn [convert_cell pyobj_scalar reads_number].
  - destruct (is_empty s); [intros [= <-]; discriminate|].
    destruct (floatify s) as [[f [z|]]|]; try discriminate.
    + destruct (in_int64 z); [|discriminate]. intros [= <-]. discriminate.
    + intros [= <-]. discriminate.
  - intros [= <-]. discriminate.
  - intros [= <-] _ _. left. reflexivity.
Qed.

Lemma existsb_false_In {A} (p : A -> bool) (l : list A) (a : A) :
  existsb p l = false -> In a l -> p a = false.
Proof.
  intros H Ha. destruct (p a) eqn:Hp; [|reflexivity].
  assert (existsb p l = true) by (apply existsb_exists; exists a; tauto).
  congruence.
Qed.

Lemma Forall2_map_r_In {A B C} (R : A -> C -> Prop) (P : A -> B -> Prop)
    (f : B -> C) (l : list A) (l' : list B) :
  Forall2 P l l' ->
  (forall a b, In b l' -> P a b -> R a (f b)) ->
  Forall2 R l (map f l').
Proof.
  induction 1 as [|a b l l' Hab _ IH]; intros H; cbn [map]; constructor.
  - apply H; [left; reflexivity|exact Hab].
  - apply IH. intros a' b' Hb'. apply H. right. exact Hb'.
Qed.

Lemma Forall2_map_l {A B C} (R : B -> C -> Prop) (f : A -> B) (l : list A) (l' : list C) :
  Forall2 (fun a c => R (f a) c) l l' -> Forall2 R (map f l) l'.
Proof.
  induction 1; cbn [map]; constructor; assumption.
Qed.

(** A parsed object array holds, row by row, the numbers of its cells. *)
Lemma maybe_convert_numeric_reads (l : list pyobj) (v' : values) :
  maybe_convert_numeric l = ret v' ->
  is_numeric_dtype v' = true
  /\ Forall2 reads_number (map pyobj_scalar l) (cells v').
Proof.
  unfold maybe_convert_numeric.
  destruct (convert_cells 0 l) as [e|ns] eqn:Hns; cbn [bind ret]; [discriminate|].
  apply convert_cells_inv in Hns.
  destruct (existsb is_num_float ns) eqn:Hfloat.
  { intros [= <-]. split; [reflexivity|]. cbn [cells]. rewrite map_map.
    apply Forall2_map_l.
    apply Forall2_map_r_In with (P := fun o n => exists k, convert_cell k o = ret n);
      [exact Hns|].
    intros o n _ [k Hk]. apply convert_cell_float with k. exact Hk. }
  destruct (existsb is_num_int ns) eqn:Hint.
  { intros [= <-]. split; [reflexivity|]. cbn [cells]. rewrite map_map.
    apply Forall2_map_l.
    apply Forall2_map_r_In with (P := fun o n => exists k, convert_cell k o = ret n);
      [exact Hns|].
    intros o n Hn [k Hk]. apply convert_cell_int with k; [exact Hk|].
    apply existsb_false_In with ns; assumption. }
  destruct ns as [|n ns].
  { intros [= <-]. split; [reflexivity|]. inversion Hns; subst. constructor. }
  intros [= <-]. split; [reflexivity|].
  change (cells (bool_ (bools n :: map bools ns)))
    with (map SBool (map bools (n :: ns))).
  rewrite map_map. apply Forall2_map_l.
  apply Forall2_map_r_In with (P := fun o n => exists k, convert_cell k o = ret n);
    [exact Hns|].
  intros o n' Hn [k Hk].
  apply convert_cell_bool with k; [exact Hk| |];
    apply existsb_false_In with (n :: ns); assumption.
Qed.


Lemma Forall2_refl_map {A B} (R : B -> B -> Prop) (f : A -> B) (l : list A) :
  (forall a, R (f a) (f a)) -> Forall2 R (map f l) (map f l).
Proof.
  intros H. induction l; cbn [map]; constructor; [apply H|assumption].
Qed.

Lemma size_cells (v : values) : length (cells v) = size v.
Proof. destruct v; cbn [cells size]; apply length_map. Qed.

(** What a conversion returns holds the coerced values of the column. *)
Lemma convert_coerced (target : TargetType) (v : values) (c : column) :
  convert target v = ret c -> coerced target v c /\ csize c = size v.
Proof.
  destruct target; cbn [convert coerced].
  - intros [= <-]. split.
    + unfold astype_str. do 2 f_equal.
      destruct v as [l|l|l|l]; cbn [cells]; rewrite !map_map; try reflexivity.
      apply map_ext. intros [s|f|b]; reflexivity.
    + unfold astype_str. cbn [csize size]. rewrite length_map.
      destruct v; cbn [size]; apply length_map.
  - destruct (to_numeric v) as [e|v'] eqn:Hv; cbn [bind ret]; [discriminate|].
    intros [= <-].
    assert (is_numeric_dtype v' = true /\ Forall2 reads_number (cells v) (cells v'))
      as [Hdtype Hcells].
    { destruct v as [l|l|l|l]; cbn [to_numeric ret] in Hv;
        try (injection Hv as <-; split; [reflexivity|]; cbn [cells];
             apply Forall2_refl_map; intros a; cbn [reads_number];
             try reflexivity; left; reflexivity).
      apply maybe_convert_numeric_reads. exact Hv. }
    split; [exists v'; tauto|].
    cbn [csize]. rewrite <- !size_cells. symmetry.
    apply Forall2_length with (1 := Hcells).
  - destruct (to_datetime v) as [e|d] eqn:Hd; cbn [bind ret]; [discriminate|].
    intros [= <-]. pose proof (to_datetime_length v d Hd) as Hlen.
    split; [exists d; split; [reflexivity|exact Hlen]|exact Hlen].
  - intros [= <-]. split; reflexivity.
Qed.


Lemma convert_has_type (target : TargetType) (v : values) (c : column) :
  convert target v = ret c -> has_type target c = true.
Proof.
  intros Hconv. destruct (convert_coerced target v c Hconv) as [H _].
  destruct target; cbn [coerced] in H.
  - subst c. cbn [has_type]. apply forallb_forall. intros o Ho.
    apply in_map_iff in Ho. destruct Ho as [x [<- _]]. reflexivity.
  - destruct H as [v' [-> [H _]]]. exact H.
  - destruct H as [l [-> _]]. reflexivity.
  - subst c. reflexivity.
Qed.

(** Text is converted to number row by row, the empty string to NaN; a
    string that is no number is refused with its position, and the table
    stays as it was. *)
Example convert_text_to_number :
  @convert_column_types reader_parsers "amount" to_number amounts
  = ([mkSeries "amount" (plain (float64 [1%float; 2.5%float; nan]))],
     success "Converted amount to number!").
Proof. vm_compute. reflexivity. Qed.

Example convert_text_refused :
  @convert_column_types reader_parsers "size" to_number sizes
  = (lift sizes,
     error ("Error converting column: Unable to parse string "
            ++ quoted "large" ++ " at position 1")).
Proof. vm_compute. reflexivity. Qed.



End Conversion.

(** ** The cleaning scenario *)

(** C2, as stated: the scenario would end with an empty table. *)
Lemma scenario_does_not_end_empty :
  ~ (exists data,
        read_csv scenario_csv = Some (ret data)
        /\ let (data1, _) := remove_duplicate_rows data in
           let (data2, _) := drop_missing_rows data1 in
           len data - len data1 = 1
           /\ len data1 - len data2 = 1
           /\ len data2 = 0).
Proof.
  intros [data [Hread H]].
  vm_compute in Hread. injection Hread as <-.
  vm_compute in H. destruct H as [_ [_ H]]. discriminate H.
Qed.

(** C2, amended. The CSV text loads as three rows; removing the duplicates
    removes one row, dropping the rows with a missing value removes one
    more, and one row is left: [1,2]. *)
Theorem scenario_ends_with_one_row :
  read_csv scenario_csv = Some (ret scenario_table)
  /\ len scenario_table = 3
  /\ remove_duplicate_rows scenario_table
     = ([mkSeries "a" (int64 [1; 3]%Z); mkSeries "b" (float64 [2%float; nan])],
        success "Removed 1 duplicate rows!")
  /\ drop_missing_rows (fst (remove_duplicate_rows scenario_table))
     = ([mkSeries "a" (int64 [1]%Z); mkSeries "b" (float64 [2%float])],
        success "Dropped 1 rows with missing values!")
  /\ len (fst (drop_missing_rows (fst (remove_duplicate_rows scenario_table)))) = 1.
Proof.
  repeat split; vm_compute; reflexivity.
Qed.

(** The same scenario as one run of the script on the uploaded file. *)
Lemma scenario_run {pd : Coercions} :
  exists page,
    run scenario_widgets (Some (mkUploadedFile "data.csv" scenario_csv))
    = Some (ret (Some page))
    /\ working_table page
       = [mkSeries "a" (plain (int64 [1]%Z)); mkSeries "b" (plain (float64 [2%float]))]
    /\ messages page
       = [success "Successfully loaded file: data.csv";
          success "Removed 1 duplicate rows!";
          success "Dropped 1 rows with missing values!"].
Proof.
  eexists. split; [vm_compute; reflexivity|].
  split; reflexivity.
Qed.

(** ** Removing duplicates twice *)

Lemma boolean_mask_nil {A} (m : list bool) : boolean_mask m (@nil A) = [].
Proof. destruct m as [|[|] m]; reflexivity. Qed.

Lemma boolean_mask_map {A B} (f : A -> B) (m : list bool) (l : list A) :
  boolean_mask m (map f l) = map f (boolean_mask m l).
Proof.
  revert l. induction m as [|b m IH]; intros [|x l]; simpl; try reflexivity.
  destruct b; simpl; rewrite IH; reflexivity.
Qed.

Lemma boolean_mask_length_le {A} (m : list bool) (l : list A) :
  length (boolean_mask m l) <= count_true m.
Proof.
  unfold count_true. revert l.
  induction m as [|b m IH]; intros [|x l]; simpl; try lia.
  destruct b; simpl; specialize (IH l); lia.
Qed.

Lemma boolean_mask_length {A} (m : list bool) (l : list A) :
  length l = length m -> length (boolean_mask m l) = count_true m.
Proof.
  unfold count_true. revert l.
  induction m as [|b m IH]; intros [|x l]; simpl; try discriminate; try reflexivity.
  intros [= H]. destruct b; simpl; rewrite IH by exact H; reflexivity.
Qed.

Lemma boolean_mask_all_true {A} (n : nat) (l : list A) :
  length l <= n -> boolean_mask (repeat true n) l = l.
Proof.
  revert l. induction n as [|n IH]; intros [|x l]; simpl; try reflexivity; try lia.
  intros H. rewrite IH by lia. reflexivity.
Qed.

(** Masking the columns masks the rows. *)
Lemma transpose_boolean_mask {A} (d : A) (m : list bool) (cols : list (list A)) :
  transpose d (count_true m) (map (boolean_mask m) cols)
  = boolean_mask m (transpose d (length m) cols).
Proof.
  unfold count_true. revert cols.
  induction m as [|b m IH]; intros cols; [reflexivity|].
  destruct b.
  - change (length (filter id (true :: m))) with (S (length (filter id m))).
    change (length (true :: m)) with (S (length m)).
    cbn [transpose]. change (boolean_mask (true :: m) (?x :: ?l)) with (x :: boolean_mask m l).
    cbn [boolean_mask]. rewrite <- IH. f_equal.
    + rewrite map_map. apply map_ext. intros [|x l]; reflexivity.
    + f_equal. rewrite !map_map. apply map_ext. intros [|x l]; simpl;
        [rewrite boolean_mask_nil|]; reflexivity.
  - change (length (filter id (false :: m))) with (length (filter id m)).
    change (length (false :: m)) with (S (length m)).
    cbn [transpose].
    change (boolean_mask (false :: m)
              (map (hd d) cols :: transpose d (length m) (map (@tl A) cols)))
      with (boolean_mask m (transpose d (length m) (map (@tl A) cols))).
    rewrite <- IH. f_equal.
    rewrite map_map. apply map_ext. intros [|x l]; simpl;
      [rewrite boolean_mask_nil|]; reflexivity.
Qed.

Lemma transpose_length {A} (d : A) (n : nat) (cols : list (list A)) :
  length (transpose d n cols) = n.
Proof.
  revert cols. induction n as [|n IH]; intros cols; simpl; [|rewrite IH]; reflexivity.
Qed.

Lemma size_keys (v : values) : length (keys v) = size v.
Proof. destruct v; simpl; apply length_map. Qed.

Lemma keys_take (m : list bool) (v : values) :
  keys (take m v) = boolean_mask m (keys v).
Proof. destruct v; simpl; rewrite boolean_mask_map; reflexivity. Qed.

Lemma size_take_le (m : list bool) (v : values) : size (take m v) <= count_true m.
Proof. destruct v; simpl; apply boolean_mask_length_le. Qed.

Lemma size_take (m : list bool) (v : values) :
  size v = length m -> size (take m v) = count_true m.
Proof. destruct v; simpl; apply boolean_mask_length. Qed.

Lemma take_all_true (n : nat) (v : values) :
  size v <= n -> take (repeat true n) v = v.
Proof.
  destruct v; simpl; intros H; rewrite boolean_mask_all_true by exact H; reflexivity.
Qed.

Lemma len_getitem_mask (m : list bool) (data : DataFrame) :
  length m = len data -> len (getitem_mask m data) = count_true m.
Proof.
  destruct data as [|c data]; simpl; intros H.
  - destruct m; [reflexivity|discriminate].
  - apply size_take. symmetry. exact H.
Qed.

Lemma rows_getitem_mask (m : list bool) (data : DataFrame) :
  length m = len data -> rows (getitem_mask m data) = boolean_mask m (rows data).
Proof.
  intros H. unfold rows. rewrite len_getitem_mask by exact H.
  rewrite <- H, <- transpose_boolean_mask. f_equal.
  unfold getitem_mask. rewrite !map_map. apply map_ext.
  intros c. apply keys_take.
Qed.

Lemma duplicated_from_length (seen rs : list (list key)) :
  length (duplicated_from seen rs) = length rs.
Proof.
  revert seen. induction rs as [|r rs IH]; intros seen; simpl; [|rewrite IH]; reflexivity.
Qed.

Lemma duplicated_length (data : DataFrame) : length (duplicated data) = len data.
Proof.
  unfold duplicated, rows. rewrite duplicated_from_length. apply transpose_length.
Qed.

(** A row that was kept equals none of the rows before it, so it equals
    none of the kept rows before it. *)
Lemma duplicated_from_kept (seen seen' rs : list (list key)) :
  incl seen' seen ->
  count_true
    (duplicated_from seen'
       (boolean_mask (map negb (duplicated_from seen rs)) rs)) = 0.
Proof.
  revert seen seen'. induction rs as [|r rs IH]; intros seen seen' Hincl; [reflexivity|].
  cbn [duplicated_from map boolean_mask].
  destruct (existsb (row_eqb r) seen) eqn:Hdup; cbn [negb].
  - apply IH. intros s Hs. right. apply Hincl. exact Hs.
  - cbn [duplicated_from].
    assert (existsb (row_eqb r) seen' = false) as Hnew.
    { destruct (existsb (row_eqb r) seen') eqn:Hnew; [|reflexivity].
      apply existsb_exists in Hnew. destruct Hnew as [s [Hs Heq]].
      assert (existsb (row_eqb r) seen = true) as Hold.
      { apply existsb_exists. exists s. split; [apply Hincl; exact Hs|exact Heq]. }
      congruence. }
    rewrite Hnew. unfold count_true. cbn [filter id].
    apply IH. intros s [<-|Hs]; [left; reflexivity|right; apply Hincl; exact Hs].
Qed.

Lemma count_true_zero_all_false (m : list bool) :
  count_true m = 0 -> map negb m = repeat true (length m).
Proof.
  unfold count_true. induction m as [|b m IH]; simpl; [reflexivity|].
  destruct b; simpl; [discriminate|]. intros H. rewrite IH by exact H. reflexivity.
Qed.

Lemma duplicated_drop_duplicates (data : DataFrame) :
  count_true (duplicated (drop_duplicates data)) = 0.
Proof.
  unfold drop_duplicates, duplicated at 1.
  rewrite rows_getitem_mask.
  - apply duplicated_from_kept. apply incl_refl.
  - rewrite length_map. apply duplicated_length.
Qed.

Lemma getitem_mask_all_true (n : nat) (data : DataFrame) :
  Forall (fun c => size (vals c) <= n) data ->
  getitem_mask (repeat true n) data = data.
Proof.
  unfold getitem_mask. induction 1 as [|c rest Hc _ IH]; [reflexivity|].
  cbn [map]. rewrite take_all_true by exact Hc. rewrite IH.
  destruct c; reflexivity.
Qed.

Lemma getitem_mask_no_duplicates (data : DataFrame) :
  count_true (duplicated data) = 0 ->
  Forall (fun c => size (vals c) <= len data) data ->
  drop_duplicates data = data.
Proof.
  intros Hzero Hsize. unfold drop_duplicates.
  rewrite (count_true_zero_all_false _ Hzero), duplicated_length.
  apply getitem_mask_all_true. exact Hsize.
Qed.

Lemma drop_duplicates_twice (data : DataFrame) :
  drop_duplicates (drop_duplicates data) = drop_duplicates data.
Proof.
  apply getitem_mask_no_duplicates; [apply duplicated_drop_duplicates|].
  assert (len (drop_duplicates data) = count_true (map negb (duplicated data))) as Hlen.
  { unfold drop_duplicates. apply len_getitem_mask.
    rewrite length_map. apply duplicated_length. }
  rewrite Hlen. unfold drop_duplicates, getitem_mask.
  apply Forall_forall. intros c Hc. apply in_map_iff in Hc.
  destruct Hc as [c0 [<- _]]. apply size_take_le.
Qed.

(** C4. Removing the duplicate rows a second time changes nothing: after
    one pass no row equals an earlier row, the second pass counts 0
    duplicates and reports that none was found, and [drop_duplicates] twice
    is [drop_duplicates] once. *)
Theorem remove_duplicate_rows_idempotent (data : DataFrame) :
  let data' := fst (remove_duplicate_rows data) in
  count_true (duplicated data') = 0
  /\ remove_duplicate_rows data' = (data', info "No duplicates found in your data.")
  /\ drop_duplicates (drop_duplicates data) = drop_duplicates data.
Proof.
  assert (count_true (duplicated (fst (remove_duplicate_rows data))) = 0) as Hzero.
  { unfold remove_duplicate_rows.
    destruct (Nat.ltb 0 (count_true (duplicated data))) eqn:Hlt; cbn [fst].
    - apply duplicated_drop_duplicates.
    - apply Nat.ltb_ge in Hlt. lia. }
  cbn zeta. split; [exact Hzero|]. split; [|apply drop_duplicates_twice].
  unfold remove_duplicate_rows at 1. rewrite Hzero. reflexivity.
Qed.

(** ** Filling with the mean *)

Lemma mem_In (s : string) (l : list string) : mem s l = true <-> In s l.
Proof.
  unfold mem. rewrite existsb_exists. split.
  - intros [x [Hx Heq]]. apply String.eqb_eq in Heq. subst. exact Hx.
  - intros H. exists s. split; [exact H|apply String.eqb_refl].
Qed.

Lemma mem_not_In (s : string) (l : list string) : mem s l = false <-> ~ In s l.
Proof.
  rewrite <- mem_In. destruct (mem s l); split; congruence.
Qed.

Lemma setitem_getitem {V} (data : Frame V) (col : string) (v : V) :
  getitem data col = ret v -> setitem data col v = data.
Proof.
  unfold getitem. induction data as [|c data IH]; simpl; [discriminate|].
  destruct (String.eqb_spec (name c) col) as [Heq|Hne].
  - intros [= <-]. subst col. destruct c; reflexivity.
  - intros H. rewrite IH by exact H. reflexivity.
Qed.

Lemma setitem_map {V} (data : Frame V) (col : string) (v : V) :
  NoDup (columns data) ->
  In col (columns data) ->
  setitem data col v
  = map (fun c => if String.eqb (name c) col then mkSeries col v else c) data.
Proof.
  induction data as [|c data IH]; simpl; [tauto|].
  intros Hnd Hin. inversion Hnd as [|? ? Hnotin Hnd']; subst.
  destruct (String.eqb_spec (name c) col) as [Heq|Hne].
  - f_equal. symmetry. rewrite <- (map_id data) at 2. apply map_ext_in.
    intros c' Hc'. destruct (String.eqb_spec (name c') col) as [Heq'|]; [|reflexivity].
    exfalso. apply Hnotin. rewrite Heq, <- Heq'. apply in_map. exact Hc'.
  - destruct Hin as [Hin|Hin]; [contradiction|].
    rewrite IH by assumption. reflexivity.
Qed.

Lemma any_isnull_int64 (l : list Z) : any (isnull (int64 l)) = false.
Proof.
  unfold any. simpl. induction l as [|z l IH]; simpl; [reflexivity|exact IH].
Qed.

Lemma filled_with_mean_no_null (v : values) :
  is_number v = true -> any (isnull v) = false -> filled_with_mean v = v.
Proof.
  destruct v as [l|l|l|l]; simpl; try discriminate; [reflexivity|].
  intros _ Hany. f_equal. rewrite <- (map_id l) at 2.
  apply map_ext_in. intros f Hf.
  destruct (is_nan f) eqn:Hnan; [|reflexivity].
  exfalso. unfold any in Hany.
  assert (existsb id (map is_nan l) = true) as Hex.
  { apply existsb_exists. exists true. split; [|reflexivity].
    apply in_map_iff. exists f. tauto. }
  congruence.
Qed.

(** One iteration of the loop on a numeric column. *)
Lemma fill_mean_col_numeric (data : DataFrame) (col : string) (v : values) :
  getitem data col = ret v ->
  is_number v = true ->
  fill_mean_col data col = ret (setitem data col (filled_with_mean v)).
Proof.
  intros Hget Hnum. unfold fill_mean_col. rewrite Hget. cbn [bind ret].
  destruct (any (isnull v)) eqn:Hany.
  - destruct v as [l|l|l|l]; try discriminate.
    + rewrite any_isnull_int64 in Hany. discriminate.
    + reflexivity.
  - rewrite filled_with_mean_no_null by assumption.
    rewrite setitem_getitem by exact Hget. reflexivity.
Qed.

Lemma is_number_filled_with_mean (v : values) :
  is_number (filled_with_mean v) = is_number v.
Proof. destruct v; reflexivity. Qed.

Lemma for_each_fill_mean_col (names : list string) (data : DataFrame) :
  NoDup (columns data) ->
  NoDup names ->
  (forall col, In col names ->
     exists c, In c data /\ name c = col /\ is_number (vals c) = true) ->
  for_each fill_mean_col names data
  = ret (map (fun c => if mem (name c) names
                       then mkSeries (name c) (filled_with_mean (vals c))
                       else c) data).
Proof.
  revert data. induction names as [|a names IH]; intros data Hnd Hnames Hnum.
  - simpl. rewrite map_id. reflexivity.
  - inversion Hnames as [|? ? Hnotin Hnames']; subst.
    destruct (Hnum a (or_introl eq_refl)) as [ca [Hca [Hname Hcanum]]].
    cbn [for_each].
    rewrite (fill_mean_col_numeric data a (vals ca)).
    2:{ rewrite <- Hname. apply getitem_unique; assumption. }
    2:{ exact Hcanum. }
    cbn [bind ret].
    assert (In a (columns data)) as Hina.
    { rewrite <- Hname. apply in_map. exact Hca. }
    rewrite setitem_map by assumption.
    rewrite IH.
    + f_equal. rewrite map_map. apply map_ext_in. intros c Hc.
      unfold mem at 2. cbn [existsb].
      destruct (String.eqb_spec (name c) a) as [Heq|Hne].
      * assert (c = ca) as -> by (apply same_name_same_column with data; congruence).
        cbn [name vals]. rewrite (proj2 (mem_not_In a names) Hnotin).
        rewrite Hname. reflexivity.
      * reflexivity.
    + unfold columns. rewrite map_map.
      erewrite map_ext; [exact Hnd|].
      intros c. destruct (String.eqb_spec (name c) a) as [Heq|]; [|reflexivity].
      simpl. symmetry. exact Heq.
    + exact Hnames'.
    + intros col Hcol.
      destruct (Hnum col (or_intror Hcol)) as [c [Hc [Hcname Hcnum]]].
      exists c. split; [|tauto].
      apply in_map_iff. exists c. split; [|exact Hc].
      destruct (String.eqb_spec (name c) a) as [Heq|]; [|reflexivity].
      exfalso. apply Hnotin. congruence.
Qed.

Lemma NoDup_select_dtypes_number (data : DataFrame) :
  NoDup (columns data) -> NoDup (select_dtypes_number data).
Proof.
  unfold select_dtypes_number, columns.
  induction data as [|c data IH]; simpl; intros Hnd; [constructor|].
  inversion Hnd as [|? ? Hnotin Hnd']; subst.
  destruct (is_number (vals c)); simpl; [|apply IH; exact Hnd'].
  constructor; [|apply IH; exact Hnd'].
  intros Hin. apply Hnotin. apply in_map_iff in Hin.
  destruct Hin as [c' [Hname Hc']]. apply filter_In in Hc'.
  apply in_map_iff. exists c'. tauto.
Qed.

(** Column by column: the float columns are filled, the others kept. *)
Lemma fill_numeric_with_mean_columns (data : DataFrame) :
  NoDup (columns data) ->
  select_dtypes_number data <> [] ->
  fill_numeric_with_mean data
  = ret (map (fun c => mkSeries (name c) (filled_with_mean (vals c))) data,
         success "Filled missing values in numeric columns with their means!").
Proof.
  intros Hnd Hsome. unfold fill_numeric_with_mean.
  destruct (select_dtypes_number data) as [|a names] eqn:Hsel; [congruence|].
  cbn [length Nat.ltb Nat.leb]. rewrite <- Hsel.
  rewrite for_each_fill_mean_col.
  - cbn [bind ret]. do 2 f_equal. apply map_ext_in. intros c Hc.
    destruct (mem (name c) (select_dtypes_number data)) eqn:Hmem; [reflexivity|].
    apply mem_not_In in Hmem.
    destruct (is_number (vals c)) eqn:Hnum.
    + exfalso. apply Hmem. apply in_select_dtypes_number. exists c. tauto.
    + destruct c as [n v]. destruct v; simpl in *; try discriminate; reflexivity.
  - exact Hnd.
  - apply NoDup_select_dtypes_number. exact Hnd.
  - intros col Hcol. apply in_select_dtypes_number. exact Hcol.
Qed.




(** ** The correlation matrix *)

Lemma nth_map_seq {A} (f : nat -> A) (K i : nat) (d : A) :
  i < K -> nth i (map f (seq 0 K)) d = f i.
Proof.
  intros Hi. rewrite (nth_indep _ d (f 0)) by (rewrite length_map, length_seq; exact Hi).
  rewrite map_nth, seq_nth by exact Hi. reflexivity.
Qed.

Lemma corr_length (cols : list (list float)) : length (corr cols) = length cols.
Proof. unfold corr. rewrite length_map, length_seq. reflexivity. Qed.

Lemma corr_row_length (cols : list (list float)) :
  Forall (fun row => length row = length cols) (corr cols).
Proof.
  unfold corr. apply Forall_forall. intros row Hrow.
  apply in_map_iff in Hrow. destruct Hrow as [i [<- _]].
  rewrite length_map, length_seq. reflexivity.
Qed.

Lemma corr_entry (cols : list (list float)) (i j : nat) :
  i < length cols -> j < length cols ->
  nth j (nth i (corr cols) []) nan
  = pearson (nth (Nat.max i j) cols []) (nth (Nat.min i j) cols []).
Proof.
  intros Hi Hj. unfold corr.
  rewrite (nth_map_seq _ _ i) by exact Hi.
  rewrite (nth_map_seq _ _ j) by exact Hj. reflexivity.
Qed.

(** C1, as stated: with one numeric column the request would fail. *)
Lemma one_numeric_column_is_charted :
  ~ (length (numeric_columns one_numeric) < 2 ->
     fst (visualization CorrelationMatrix "city" "score" true one_numeric) = None).
Proof.
  intros H. assert (length (numeric_columns one_numeric) < 2) as Hlt.
  { vm_compute. lia. }
  specialize (H Hlt). vm_compute in H. discriminate H.
Qed.

(** A column correlated with itself: the three sums of [nancorr] are one
    sum, which is 0 as long as no row has counted. *)
Lemma accumulate_self (x : list float) :
  let m := accumulate x x in
  ssqdm_y m = ssqdm_x m /\ covxy m = ssqdm_x m
  /\ (nobs m = 0 -> ssqdm_x m = 0%float).
Proof.
  unfold accumulate.
  assert (forall m0,
            meany m0 = meanx m0 /\ ssqdm_y m0 = ssqdm_x m0 /\ covxy m0 = ssqdm_x m0
            /\ (nobs m0 = 0 -> ssqdm_x m0 = 0%float) ->
            let m := fold_left observe (combine x x) m0 in
            meany m = meanx m /\ ssqdm_y m = ssqdm_x m /\ covxy m = ssqdm_x m
            /\ (nobs m = 0 -> ssqdm_x m = 0%float)) as H.
  { induction x as [|v x IH]; intros m0 Hm0; [exact Hm0|].
    cbn [combine fold_left]. apply IH.
    destruct Hm0 as [Hmean [Hy [Hcov Hzero]]].
    unfold observe. destruct (is_finite v && is_finite v).
    - cbn [meanx meany ssqdm_x ssqdm_y covxy nobs].
      rewrite Hmean, Hy, Hcov. repeat split. discriminate.
    - tauto. }
  specialize (H (mkMoments 0 0 0 0 0 0)). cbn zeta in *.
  apply H. cbn. tauto.
Qed.

(** The coefficient of a column with itself is 1 when the sum [s] of its
    squared deviations is finite and not zero, and squaring [s] and taking
    the root gives [s] back. *)
Lemma pearson_self (x : list float) :
  let s := squared_deviations x in
  is_finite s = true -> is_zero s = false -> sqrt (s * s) = s ->
  pearson x x = 1%float.
Proof.
  unfold squared_deviations, pearson. cbn zeta.
  destruct (accumulate_self x) as [Hy [Hcov Hzero]]. cbn zeta in *.
  set (m := accumulate x x) in *. rewrite Hy, Hcov.
  intros Hfin Hnz Hsqrt.
  destruct (Nat.ltb (nobs m) 1) eqn:Hobs.
  { apply Nat.ltb_lt in Hobs. rewrite Hzero in Hnz by lia. discriminate Hnz. }
  rewrite Hsqrt. change (ssqdm_x m =? 0)%float with (is_zero (ssqdm_x m)).
  rewrite Hnz. cbn [negb]. rewrite div_self by assumption. reflexivity.
Qed.

(** A coefficient is NaN or lies between -1 and 1. *)
Lemma pearson_range (x y : list float) :
  (1 <? pearson x y)%float = false /\ (pearson x y <? -1)%float = false.
Proof.
  unfold pearson. set (m := accumulate x y).
  destruct (Nat.ltb (nobs m) 1); [split; reflexivity|].
  destruct (negb (sqrt (ssqdm_x m * ssqdm_y m) =? 0)%float); [|split; reflexivity].
  destruct (1 <? covxy m / sqrt (ssqdm_x m * ssqdm_y m))%float eqn:Hhigh;
    [split; reflexivity|].
  destruct (covxy m / sqrt (ssqdm_x m * ssqdm_y m) <? -1)%float eqn:Hlow;
    [split; reflexivity|].
  split; assumption.
Qed.

(** C1, amended. The charts are behind one test: the table has at least
    one numeric column.  Without a numeric column the page shows a warning
    and no chart.  With one or more, "Correlation Matrix" shows a square
    matrix over all numeric columns, in table order, whose entry [i, j] is
    Pearson's coefficient of columns [max i j] and [min i j], NaN or within
    [-1, 1]; the matrix is therefore symmetric.  The diagonal entry of a
    column is 1.0 when the sum [s] of its squared deviations is finite and
    not zero (the variance is not zero), and [sqrt (s * s)] is [s] (the
    square of [s] neither overflows nor underflows). *)
Theorem correlation_matrix_spec (x_axis y_axis : string) (data : Table) :
  let arrays := map vals (numeric_data data) in
  let K := length (numeric_columns data) in
  match numeric_columns data with
  | [] =>
      visualization CorrelationMatrix x_axis y_axis true data
      = (None, [warning "Your dataset needs numeric columns for visualization."])
  | _ :: _ =>
      exists m,
        visualization CorrelationMatrix x_axis y_axis true data
        = (Some (matshow (numeric_columns data) m), [])
        /\ length m = K
        /\ Forall (fun row => length row = K) m
        /\ (forall i j, i < K -> j < K ->
              nth j (nth i m []) nan
              = pearson (nth (Nat.max i j) arrays []) (nth (Nat.min i j) arrays [])
              /\ nth j (nth i m []) nan = nth i (nth j m []) nan
              /\ (1 <? nth j (nth i m []) nan)%float = false
              /\ (nth j (nth i m []) nan <? -1)%float = false)
        /\ (forall i, i < K ->
              let s := squared_deviations (nth i arrays []) in
              is_finite s = true -> is_zero s = false -> sqrt (s * s) = s ->
              nth i (nth i m []) nan = 1%float)
  end.
Proof.
  cbn zeta. unfold visualization.
  assert (length (numeric_columns data) = length (map vals (numeric_data data))) as HK.
  { unfold numeric_columns, columns. rewrite !length_map. reflexivity. }
  destruct (numeric_columns data) as [|a names] eqn:Hnum; [reflexivity|].
  cbn [length Nat.leb]. exists (corr (map vals (numeric_data data))).
  cbn [generate]. fold (numeric_columns data). rewrite Hnum.
  split; [reflexivity|]. cbn [length] in HK. rewrite HK.
  split; [apply corr_length|]. split; [apply corr_row_length|]. split.
  - intros i j Hi Hj. rewrite !corr_entry by assumption. split; [reflexivity|].
    split; [|apply pearson_range].
    rewrite (Nat.max_comm i j), (Nat.min_comm i j). reflexivity.
  - intros i Hi Hfin Hnz Hsqrt. rewrite corr_entry by assumption.
    rewrite Nat.max_id, Nat.min_id. apply pearson_self; assumption.
Qed.

(** The matrix of [two_numeric]: symmetric, with 1.0 on the diagonal. *)
Lemma correlation_matrix_spec_witness :
  exists m,
    visualization CorrelationMatrix "x" "y" true two_numeric
    = (Some (matshow ["x"; "y"] m), [])
    /\ length m = 2
    /\ nth 1 (nth 0 m []) nan = nth 0 (nth 1 m []) nan
    /\ nth 0 (nth 0 m []) nan = 1%float
    /\ nth 1 (nth 1 m []) nan = 1%float.
Proof.
  destruct (correlation_matrix_spec "x" "y" two_numeric)
    as [m [Hm [Hlen [_ [Hentry Hdiag]]]]].
  exists m. split; [exact Hm|]. split; [exact Hlen|].
  split; [apply (Hentry 0 1); vm_compute; lia|].
  split; [apply (Hdiag 0)|apply (Hdiag 1)];
    try (vm_compute; lia); vm_compute; reflexivity.
Defined.

(** The matrix of [two_numeric]: 1.0 on the diagonal. *)
Example corr_two_numeric :
  let m := corr (map vals (numeric_data two_numeric)) in
  nth 0 (nth 0 m []) nan = 1%float /\ nth 1 (nth 1 m []) nan = 1%float.
Proof. vm_compute. split; reflexivity. Qed.

(** The diagonal is a property of binary64 arithmetic: when the squared
    deviations overflow, the diagonal entry of a column of two different
    values is 0. *)
Example corr_large_values :
  corr (map vals (numeric_data large_values)) = [[0%float]].
Proof. vm_compute. reflexivity. Qed.

(** ** Export and reload *)

(** The table of the run is exported as text in which [a] holds digits. *)
Lemma digits_run {pd : Coercions} :
  exists page text,
    run digits_widgets (Some (mkUploadedFile "data.csv" digits_csv))
    = Some (ret (Some page))
    /\ working_table page = digits_table
    /\ nrows (working_table page) = 2
    /\ option_map file_data (offered page) = Some (csv_data text)
    /\ to_csv digits_table = Some text.
Proof.
  eexists. eexists. split; [vm_compute; reflexivity|].
  repeat split.
Qed.


(** Strings *)

Lemma contains_append (c : ascii) (a b : string) :
  contains c (a ++ b) = contains c a || contains c b.
Proof.
  induction a as [|x a IH]; simpl; [reflexivity|].
  rewrite IH, orb_assoc. reflexivity.
Qed.

Lemma append_assoc (a b c : string) : ((a ++ b) ++ c = a ++ (b ++ c))%string.
Proof.
  induction a as [|x a IH]; simpl; [reflexivity|]. rewrite IH. reflexivity.
Qed.

Lemma append_empty_r (a : string) : (a ++ EmptyString)%string = a.
Proof.
  induction a as [|x a IH]; simpl; [reflexivity|]. rewrite IH. reflexivity.
Qed.

Lemma concat_empty_cons (x : string) (xs : list string) :
  String.concat EmptyString (x :: xs) = (x ++ String.concat EmptyString xs)%string.
Proof.
  destruct xs as [|y ys]; simpl.
  - rewrite append_empty_r. reflexivity.
  - reflexivity.
Qed.

(** A joined row is its first field and, for every other field, a comma
    and the field. *)
Lemma concat_comma (x : string) (xs : list string) :
  String.concat (chr COMMA) (x :: xs)
  = (x ++ String.concat EmptyString (map (fun f => String COMMA f) xs))%string.
Proof.
  revert x. induction xs as [|y ys IH]; intros x.
  - simpl. rewrite append_empty_r. reflexivity.
  - change (String.concat (chr COMMA) (x :: y :: ys))
      with (x ++ chr COMMA ++ String.concat (chr COMMA) (y :: ys))%string.
    rewrite IH. cbn [map]. rewrite concat_empty_cons. reflexivity.
Qed.

(** The tokenizer on the text of a field *)

Lemma needs_quoting_inv (s : string) :
  needs_quoting s = false ->
  contains COMMA s = false /\ contains DQUOTE s = false /\ contains LF s = false.
Proof.
  unfold needs_quoting. intros H.
  apply orb_false_iff in H. destruct H as [H H3].
  apply orb_false_iff in H. tauto.
Qed.

(** Inside a field, the characters up to the next delimiter or line feed
    are added to the field. *)
Lemma tokenize_in_field (f field : string) (record : list string) (s : string) :
  contains COMMA f = false -> contains LF f = false ->
  tokenize IN_FIELD field record (f ++ s)
  = tokenize IN_FIELD (field ++ f) record s.
Proof.
  revert field. induction f as [|c f IH]; intros field Hcomma Hlf.
  - rewrite append_empty_r. reflexivity.
  - cbn [contains] in Hcomma, Hlf.
    apply orb_false_iff in Hcomma, Hlf.
    destruct Hcomma as [Hc1 Hcomma], Hlf as [Hc2 Hlf].
    cbn [append tokenize transition]. unfold in_field. rewrite Hc1, Hc2.
    rewrite IH by assumption. rewrite append_assoc. reflexivity.
Qed.

(** At the end of a field the tokenizer does the same at the start of a
    field, inside a field and after the closing quote. *)
Lemma tokenize_start_field_end (field : string) (record : list string) (s : string) :
  at_field_end s = true ->
  tokenize START_FIELD field record s = tokenize IN_FIELD field record s.
Proof.
  destruct s as [|c s]; [reflexivity|]. cbn [at_field_end].
  intros H. cbn [tokenize transition]. unfold start_field, in_field.
  destruct (Ascii.eqb_spec c LF) as [->|Hlf]; [reflexivity|].
  destruct (Ascii.eqb_spec c COMMA) as [->|Hcomma]; [reflexivity|discriminate H].
Qed.

Lemma tokenize_quote_end (field : string) (record : list string) (s : string) :
  at_field_end s = true ->
  tokenize QUOTE_IN_QUOTED_FIELD field record s = tokenize IN_FIELD field record s.
Proof.
  destruct s as [|c s]; [reflexivity|]. cbn [at_field_end].
  intros H. cbn [tokenize transition].
  destruct (Ascii.eqb_spec c DQUOTE) as [->|Hq]; [discriminate H|reflexivity].
Qed.

(** A field without a delimiter, a quote or a line feed is read as it is
    written. *)
Lemma tokenize_plain_field (f : string) (record : list string) (s : string) :
  needs_quoting f = false ->
  at_field_end s = true ->
  tokenize START_FIELD EmptyString record (f ++ s)
  = tokenize IN_FIELD f record s.
Proof.
  intros Hf Hs. apply needs_quoting_inv in Hf. destruct Hf as [H1 [H2 H3]].
  destruct f as [|c f].
  - apply tokenize_start_field_end. exact Hs.
  - cbn [contains] in H1, H2, H3. apply orb_false_iff in H1, H2, H3.
    destruct H1 as [Hc1 H1], H2 as [Hc2 H2], H3 as [Hc3 H3].
    cbn [append tokenize transition]. unfold start_field. rewrite Hc1, Hc2, Hc3.
    rewrite tokenize_in_field by assumption. reflexivity.
Qed.

(** Inside the quotes, up to the closing quote: a doubled quote is one
    quote of the field. *)
Lemma tokenize_quoted_field (f field : string) (record : list string) (s : string) :
  at_field_end s = true ->
  tokenize IN_QUOTED_FIELD field record (escape_quotes f ++ String DQUOTE s)
  = tokenize IN_FIELD (field ++ f) record s.
Proof.
  intros Hs. revert field. induction f as [|c f IH]; intros field.
  - rewrite append_empty_r. cbn [escape_quotes append tokenize transition].
    rewrite Ascii.eqb_refl. apply tokenize_quote_end. exact Hs.
  - cbn [escape_quotes]. destruct (Ascii.eqb_spec c DQUOTE) as [->|Hq].
    + cbn [append tokenize transition]. rewrite Ascii.eqb_refl.
      cbn [tokenize transition]. rewrite Ascii.eqb_refl.
      rewrite IH, append_assoc. reflexivity.
    + cbn [append tokenize transition].
      destruct (Ascii.eqb_spec c DQUOTE) as [|_]; [contradiction|].
      rewrite IH, append_assoc. reflexivity.
Qed.

(** A field as [to_csv] writes it is read back as the field. *)
Lemma tokenize_csv_field (f : string) (record : list string) (s : string) :
  at_field_end s = true ->
  tokenize START_FIELD EmptyString record (csv_field f ++ s)
  = tokenize IN_FIELD f record s.
Proof.
  intros Hs. unfold csv_field. destruct (needs_quoting f) eqn:Hf.
  - rewrite !append_assoc. cbn [chr append tokenize transition]. unfold start_field.
    change (Ascii.eqb DQUOTE LF) with false. rewrite Ascii.eqb_refl.
    apply (tokenize_quoted_field f EmptyString). exact Hs.
  - apply tokenize_plain_field; assumption.
Qed.

(** The fields after the first one, and the end of the line. *)
Lemma tokenize_fields (fs : list string) (field : string) (record : list string)
    (rest : string) :
  tokenize IN_FIELD field record
    (String.concat EmptyString (map (fun f => String COMMA (csv_field f)) fs)
     ++ String LF rest)
  = option_map (cons (record ++ field :: fs))
      (tokenize START_RECORD EmptyString [] rest).
Proof.
  revert field record. induction fs as [|f fs IH]; intros field record.
  - cbn [map String.concat append tokenize transition]. unfold in_field.
    rewrite Ascii.eqb_refl. reflexivity.
  - cbn [map]. rewrite concat_empty_cons.
    cbn [append tokenize transition]. unfold in_field.
    change (Ascii.eqb COMMA LF) with false. rewrite Ascii.eqb_refl.
    rewrite append_assoc, tokenize_csv_field.
    + rewrite IH. rewrite <- app_assoc. reflexivity.
    + destruct fs; [reflexivity|]. cbn [map]. rewrite concat_empty_cons. reflexivity.
Qed.

(** A line of blank space goes on as a field at the first other
    character. *)
Lemma tokenize_whitespace_line (g field : string) (record : list string) (s : string) :
  contains COMMA g = false -> contains LF g = false ->
  at_field_end s = true ->
  (all_whitespace g = true -> exists t, s = String COMMA t) ->
  tokenize WHITESPACE_LINE field record (g ++ s)
  = tokenize IN_FIELD (field ++ g) record s.
Proof.
  revert field. induction g as [|c g IH]; intros field Hcomma Hlf Hs Hblank.
  - rewrite append_empty_r. destruct (Hblank eq_refl) as [t ->].
    reflexivity.
  - cbn [contains] in Hcomma, Hlf. apply orb_false_iff in Hcomma, Hlf.
    destruct Hcomma as [Hc1 Hcomma], Hlf as [Hc2 Hlf].
    cbn [append tokenize transition]. rewrite Hc2.
    destruct (is_whitespace c) eqn:Hws.
    + rewrite IH; [rewrite append_assoc; reflexivity|assumption..|].
      intros Hg. apply Hblank. cbn [all_whitespace]. rewrite Hws, Hg. reflexivity.
    + unfold in_field. rewrite Hc1, Hc2.
      rewrite tokenize_in_field by assumption. rewrite append_assoc. reflexivity.
Qed.

(** The first field of a line; a field of blank space only is followed by
    another field. *)
Lemma tokenize_first_field (f : string) (s : string) :
  at_field_end s = true ->
  (all_whitespace f = true -> exists t, s = String COMMA t) ->
  tokenize START_RECORD EmptyString [] (csv_field f ++ s)
  = tokenize IN_FIELD f [] s.
Proof.
  intros Hs Hblank. unfold csv_field. destruct (needs_quoting f) eqn:Hf.
  - rewrite !append_assoc. cbn [chr append tokenize transition]. unfold start_field.
    change (Ascii.eqb DQUOTE LF) with false.
    change (is_whitespace DQUOTE) with false. rewrite Ascii.eqb_refl.
    apply (tokenize_quoted_field f EmptyString). exact Hs.
  - destruct (needs_quoting_inv f Hf) as [H1 [H2 H3]].
    destruct f as [|c f].
    + destruct (Hblank eq_refl) as [t ->]. reflexivity.
    + cbn [contains] in H1, H2, H3. apply orb_false_iff in H1, H2, H3.
      destruct H1 as [Hc1 H1], H2 as [Hc2 H2], H3 as [Hc3 H3].
      cbn [append tokenize transition]. rewrite Hc3.
      destruct (is_whitespace c) eqn:Hws.
      * rewrite tokenize_whitespace_line; [reflexivity|assumption..|].
        intros Hg. apply Hblank. cbn [all_whitespace]. rewrite Hws, Hg. reflexivity.
      * unfold start_field. rewrite Hc1, Hc2, Hc3.
        rewrite tokenize_in_field by assumption. reflexivity.
Qed.

(** A row as [to_csv] writes it is read back as the row, unless it is empty
    or a single field of blank space. *)
Lemma tokenize_csv_row (r : list string) (rest : string) :
  r <> [] ->
  (forall f, r = [f] -> is_blank f = false) ->
  tokenize START_RECORD EmptyString [] (csv_row r ++ rest)
  = option_map (cons r) (tokenize START_RECORD EmptyString [] rest).
Proof.
  intros Hne Hblank. destruct r as [|f fs]; [congruence|].
  assert (forall fs', at_field_end
            (String.concat EmptyString (map (fun f => String COMMA (csv_field f)) fs')
             ++ String LF rest) = true) as Hend.
  { intros [|f' fs']; [reflexivity|]. cbn [map]. rewrite concat_empty_cons. reflexivity. }
  assert (f = EmptyString /\ fs = [] \/
          csv_row (f :: fs) ++ rest
          = csv_field f
            ++ (String.concat EmptyString (map (fun f => String COMMA (csv_field f)) fs)
                ++ String LF rest))%string as [[-> ->]|Htext].
  { destruct f as [|c f]; [destruct fs as [|f' fs]; [left; tauto|]|]; right.
    - change (csv_row (EmptyString :: f' :: fs))
        with (String.concat (chr COMMA) (map csv_field (EmptyString :: f' :: fs))
              ++ chr LF)%string.
      cbn [map]. rewrite concat_comma. cbn [map].
      rewrite map_map, !append_assoc. reflexivity.
    - change (csv_row (String c f :: fs))
        with (String.concat (chr COMMA) (map csv_field (String c f :: fs))
              ++ chr LF)%string.
      cbn [map]. rewrite concat_comma, map_map, !append_assoc. reflexivity. }
  - reflexivity.
  - rewrite Htext, tokenize_first_field.
    + apply (tokenize_fields fs f []).
    + apply Hend.
    + intros Hws. destruct fs as [|f' fs].
      * specialize (Hblank _ eq_refl). unfold is_blank in Hblank.
        rewrite Hws, andb_true_r in Hblank. apply negb_false_iff in Hblank.
        apply String.eqb_eq in Hblank. subst f.
        exfalso. revert Htext. unfold csv_row. cbn. intros [= H].
      * cbn [map]. rewrite concat_empty_cons. eexists. reflexivity.
Qed.

(** The text of rows is read back as the rows. *)
Lemma tokenize_csv_rows (rows : list (list string)) :
  Forall (fun r => r <> [] /\ forall f, r = [f] -> is_blank f = false) rows ->
  tokenize START_RECORD EmptyString [] (String.concat EmptyString (map csv_row rows))
  = Some rows.
Proof.
  induction 1 as [|r rows [Hne Hblank] _ IH]; [reflexivity|].
  cbn [map]. rewrite concat_empty_cons, tokenize_csv_row by assumption.
  rewrite IH. reflexivity.
Qed.

(** Carriage returns *)

Lemma contains_escape_quotes (c : ascii) (s : string) :
  c <> DQUOTE -> contains c (escape_quotes s) = contains c s.
Proof.
  intros Hc. induction s as [|a s IH]; [reflexivity|].
  cbn [escape_quotes]. destruct (Ascii.eqb_spec a DQUOTE) as [->|Ha].
  - cbn [contains]. rewrite IH.
    destruct (Ascii.eqb_spec DQUOTE c); [congruence|reflexivity].
  - cbn [contains]. rewrite IH. reflexivity.
Qed.

Lemma contains_CR_csv_field (s : string) :
  contains CR (csv_field s) = contains CR s.
Proof.
  unfold csv_field. destruct (needs_quoting s); [|reflexivity].
  rewrite !contains_append, contains_escape_quotes by discriminate.
  cbn. rewrite orb_false_r. reflexivity.
Qed.

Lemma contains_concat_empty (c : ascii) (l : list string) :
  Forall (fun s => contains c s = false) l ->
  contains c (String.concat EmptyString l) = false.
Proof.
  induction 1 as [|s l Hs _ IH]; [reflexivity|].
  rewrite concat_empty_cons, contains_append, Hs, IH. reflexivity.
Qed.

Lemma contains_CR_csv_row (r : list string) :
  Forall (fun f => contains CR f = false) r -> contains CR (csv_row r) = false.
Proof.
  intros Hr. destruct r as [|f fs]; [reflexivity|].
  assert (csv_row (f :: fs) = chr DQUOTE ++ chr DQUOTE ++ chr LF
          \/ csv_row (f :: fs)
             = String.concat (chr COMMA) (map csv_field (f :: fs)) ++ chr LF)%string
    as [->| ->].
  { destruct f as [|c f]; [destruct fs; [left|right]|right]; reflexivity. }
  - reflexivity.
  - cbn [map]. rewrite concat_comma, !contains_append, contains_CR_csv_field.
    inversion Hr as [|? ? Hf Hfs]; subst. rewrite Hf. cbn [orb].
    rewrite contains_concat_empty; [reflexivity|].
    rewrite map_map. apply Forall_forall. intros s Hs.
    apply in_map_iff in Hs. destruct Hs as [g [<- Hg]].
    cbn [contains]. rewrite contains_CR_csv_field.
    rewrite Forall_forall in Hfs. rewrite (Hfs g Hg). reflexivity.
Qed.

Lemma existsb_false_forall {A} (p : A -> bool) (l : list A) :
  Forall (fun a => p a = false) l -> existsb p l = false.
Proof.
  induction 1 as [|a l Ha _ IH]; [reflexivity|]. simpl. rewrite Ha, IH. reflexivity.
Qed.

Lemma forallb_true_forall {A} (p : A -> bool) (l : list A) :
  Forall (fun a => p a = true) l -> forallb p l = true.
Proof.
  induction 1 as [|a l Ha _ IH]; [reflexivity|]. simpl. rewrite Ha, IH. reflexivity.
Qed.

(** Rows and columns *)

Lemma hd_transpose {A} (d : A) (n : nat) (c : list A) (cs : list (list A)) :
  length c = n -> map (hd d) (transpose d n (c :: cs)) = c.
Proof.
  revert c cs. induction n as [|n IH]; intros [|x c] cs; simpl; try discriminate;
    [reflexivity|].
  intros [= H]. f_equal. apply IH. exact H.
Qed.

Lemma tl_transpose {A} (d : A) (n : nat) (c : list A) (cs : list (list A)) :
  map (@tl A) (transpose d n (c :: cs)) = transpose d n cs.
Proof.
  revert c cs. induction n as [|n IH]; intros c cs; simpl; [reflexivity|].
  f_equal. apply IH.
Qed.

Lemma transpose_transpose {A} (d : A) (n : nat) (cols : list (list A)) :
  Forall (fun c => length c = n) cols ->
  transpose d (length cols) (transpose d n cols) = cols.
Proof.
  induction 1 as [|c cs Hc _ IH]; [reflexivity|].
  cbn [length transpose].
  rewrite hd_transpose by exact Hc. rewrite tl_transpose, IH. reflexivity.
Qed.

Lemma transpose_rows {A} (P : A -> Prop) (d : A) (n : nat) (cols : list (list A)) :
  Forall (fun c => length c = n /\ Forall P c) cols ->
  Forall (fun r => length r = length cols /\ Forall P r) (transpose d n cols).
Proof.
  revert cols. induction n as [|n IH]; intros cols Hcols; [constructor|].
  cbn [transpose]. constructor.
  - split; [apply length_map|].
    apply Forall_forall. intros x Hx. apply in_map_iff in Hx.
    destruct Hx as [c [<- Hc]]. rewrite Forall_forall in Hcols.
    destruct (Hcols c Hc) as [Hlen Hall]. destruct c as [|y c]; [discriminate|].
    inversion Hall; assumption.
  - rewrite <- (length_map (@tl A) cols). apply IH.
    apply Forall_forall. intros t Ht. apply in_map_iff in Ht.
    destruct Ht as [c [<- Hc]]. rewrite Forall_forall in Hcols.
    destruct (Hcols c Hc) as [Hlen Hall]. destruct c as [|y c]; [discriminate|].
    simpl in *. inversion Hall; subst. split; [lia|assumption].
Qed.

(** A field without a carriage return that is not blank space only. *)
Lemma header_name_inv (s : string) :
  header_name s = true ->
  is_empty s = false /\ is_blank s = false /\ contains CR s = false.
Proof.
  unfold header_name. intros H.
  apply andb_true_iff in H. destruct H as [H H3].
  apply andb_true_iff in H. destruct H as [H1 H2].
  apply negb_true_iff in H1, H2, H3. tauto.
Qed.

(** [read_csv] on the text that [to_csv] writes for a header and
    columns: the header gives the names and the rows give the columns
    back. *)
Lemma read_csv_records (names : list string) (cols : list (list string)) (n : nat) :
  names <> [] ->
  length cols = length names ->
  Forall (fun f => header_name f = true) names ->
  distinct names = true ->
  Forall (fun col => length col = n
                     /\ Forall (fun f => contains CR f = false /\ is_blank f = false) col)
         cols ->
  read_csv (String.concat EmptyString
              (map csv_row (names :: transpose EmptyString n cols)))
  = match option_all (map (fun col => option_all (map classify col)) cols) with
    | None => None
    | Some toks =>
        Some (ret (map (fun '(n, (col, t)) => mkSeries n (infer (combine col t)))
                       (combine names (combine cols toks))))
    end.
Proof.
  intros Hne Hlen Hnames Hdistinct Hcols.
  set (rows := transpose EmptyString n cols).
  assert (Forall (fun r => length r = length names
                           /\ Forall (fun f => contains CR f = false
                                               /\ is_blank f = false) r) rows) as Hrows.
  { unfold rows. rewrite <- Hlen. apply transpose_rows. exact Hcols. }
  assert (Forall (fun r => r <> []
                           /\ Forall (fun f => contains CR f = false
                                               /\ is_blank f = false) r)
                 (names :: rows)) as Hrecords.
  { constructor.
    - split; [exact Hne|]. apply Forall_forall. intros f Hf.
      rewrite Forall_forall in Hnames.
      pose proof (header_name_inv f (Hnames f Hf)). tauto.
    - apply Forall_forall. intros r Hr. rewrite Forall_forall in Hrows.
      destruct (Hrows r Hr) as [Hl Hp]. split; [|exact Hp].
      destruct r; [|discriminate]. destruct names; [congruence|discriminate]. }
  unfold read_csv.
  rewrite contains_concat_empty.
  2:{ apply Forall_forall. intros line Hline. apply in_map_iff in Hline.
      destruct Hline as [r [<- Hr]]. apply contains_CR_csv_row.
      rewrite Forall_forall in Hrecords. destruct (Hrecords r Hr) as [_ Hfields].
      apply Forall_forall. intros f Hf. rewrite Forall_forall in Hfields.
      apply Hfields. exact Hf. }
  rewrite tokenize_csv_rows.
  2:{ apply Forall_forall. intros r Hr. rewrite Forall_forall in Hrecords.
      destruct (Hrecords r Hr) as [Hr1 Hr2]. split; [exact Hr1|].
      intros f ->. inversion Hr2; tauto. }
  rewrite existsb_false_forall.
  2:{ apply Forall_forall. intros f Hf. rewrite Forall_forall in Hnames.
      apply (header_name_inv f (Hnames f Hf)). }
  rewrite Hdistinct. cbn [negb orb].
  rewrite forallb_true_forall.
  2:{ apply Forall_forall. intros r Hr. rewrite Forall_forall in Hrows.
      apply Nat.eqb_eq. apply Hrows. exact Hr. }
  cbn [negb]. unfold rows. rewrite <- Hlen.
  rewrite transpose_transpose.
  2:{ apply Forall_forall. intros c Hc. rewrite Forall_forall in Hcols.
      apply Hcols. exact Hc. }
  reflexivity.
Qed.

(** The text [to_csv] gives for columns of fields without a carriage
    return. *)
Lemma to_csv_text (data : Table) (cols : list (list string)) :
  option_all (map (fun c => column_text (vals c)) data) = Some cols ->
  Forall (fun f => contains CR f = false) (columns data) ->
  Forall (fun col => length col = nrows data
                     /\ Forall (fun f => contains CR f = false) col) cols ->
  to_csv data
  = Some (String.concat EmptyString
            (map csv_row (columns data :: transpose EmptyString (nrows data) cols))).
Proof.
  intros Htext Hnames Hcols. unfold to_csv. rewrite Htext.
  rewrite existsb_false_forall; [reflexivity|].
  constructor.
  - apply existsb_false_forall. exact Hnames.
  - pose proof (transpose_rows _ EmptyString (nrows data) cols Hcols) as Hall.
    apply Forall_forall. intros r Hr. rewrite Forall_forall in Hall.
    apply existsb_false_forall. apply Hall. exact Hr.
Qed.

(** Fields as text and back *)

Lemma classify_inv (s : string) (t : token) :
  classify s = Some t -> contains CR s = false /\ is_blank s = false.
Proof.
  unfold classify. destruct (contains CR s); [discriminate|].
  destruct (is_blank s); [discriminate|]. tauto.
Qed.











(** The texts of some floats, as [repr] gives them. *)
Example float_text_examples :
  map float_text
      [0x1.999999999999ap-4; 0x1.8p+0; 0x1p+1; 0x1.4f8b588e368f1p-17;
       0x1.1c37937e08p+53; (-0x1.8p-1); infinity]%float
  = [Some "0.1"; Some "1.5"; Some "2.0"; Some "1e-05"; Some "1e+16";
     Some "-0.75"; Some "inf"].
Proof. vm_compute. reflexivity. Qed.

(** The text of 0.1 + 0.2 has 17 digits: it is outside the model. *)
Example float_text_long : float_text 0x1.3333333333334p-2%float = None.
Proof. vm_compute. reflexivity. Qed.

(** The scenario table is exported with its floats and its missing
    value. *)
Example scenario_table_exported :
  to_csv (lift scenario_table)
  = Some ("a,b" ++ chr LF ++ "1,2.0" ++ chr LF ++ "1,2.0" ++ chr LF ++ "3," ++ chr LF)%string.
Proof. vm_compute. reflexivity. Qed.

(** Columns as text and back *)


Lemma option_all_Forall2 {A B} (f : A -> option B) (l : list A) (l' : list B) :
  option_all (map f l) = Some l' <-> Forall2 (fun a b => f a = Some b) l l'.
Proof.
  split.
  - revert l'. induction l as [|a l IH]; intros l'; cbn [map option_all].
    + intros [= <-]. constructor.
    + destruct (f a) as [b|] eqn:Hb; [|discriminate].
      destruct (option_all (map f l)) as [bs|]; [|discriminate].
      intros [= <-]. constructor; [exact Hb|apply IH; reflexivity].
  - induction 1 as [|a b l l' Hab _ IH]; [reflexivity|].
    cbn [map option_all]. rewrite Hab, IH. reflexivity.
Qed.

Lemma option_all_length {A B} (f : A -> option B) (l : list A) (l' : list B) :
  option_all (map f l) = Some l' -> length l' = length l.
Proof.
  intros H. apply option_all_Forall2 in H. apply Forall2_length in H.
  symmetry. exact H.
Qed.

(** Fields that are read hold no carriage return and are not blank. *)
Lemma classify_all_inv (fields : list string) (toks : list token) :
  option_all (map classify fields) = Some toks ->
  Forall (fun f => contains CR f = false /\ is_blank f = false) fields.
Proof.
  intros H. apply option_all_Forall2 in H.
  induction H as [|f t fields toks Hf _ IH]; constructor; [|exact IH].
  apply classify_inv with t. exact Hf.
Qed.












Lemma endswith_append (s suffix : string) : endswith (s ++ suffix) suffix = true.
Proof.
  induction s as [|c s IH]; simpl.
  - destruct suffix; simpl; rewrite ?String.eqb_refl, ?Ascii.eqb_refl; reflexivity.
  - rewrite IH. apply orb_true_r.
Qed.

(** Columns of fields that are read, row by row. *)
Lemma classified_columns (n : nat) (cols : list (list string))
    (toks : list (list token)) :
  option_all (map (fun col => option_all (map classify col)) cols) = Some toks ->
  Forall (fun col => length col = n) cols ->
  Forall (fun col => length col = n
                     /\ Forall (fun f => contains CR f = false /\ is_blank f = false) col)
         cols.
Proof.
  intros Htoks. apply option_all_Forall2 in Htoks.
  induction Htoks as [|col t cols toks Ht _ IH]; intros Hlens; [constructor|].
  constructor; [|apply IH; apply (Forall_inv_tail Hlens)].
  split; [apply (Forall_inv Hlens)|]. apply classify_all_inv with t. exact Ht.
Qed.

(** The export of a table whose fields are all read, and its reload. *)
Lemma export_reload (filename : string) (data : Table)
    (cols : list (list string)) (toks : list (list token)) :
  data <> [] ->
  distinct (columns data) = true ->
  forallb header_name (columns data) = true ->
  option_all (map (fun c => column_text (vals c)) data) = Some cols ->
  option_all (map (fun col => option_all (map classify col)) cols) = Some toks ->
  Forall (fun col => length col = nrows data) cols ->
  exists text,
    to_csv data = Some text
    /\ load_data (mkUploadedFile (filename ++ ".csv") text)
       = Some (Some (map (fun '(n, (col, t)) => mkSeries n (infer (combine col t)))
                         (combine (columns data) (combine cols toks))), []).
Proof.
  intros Hne Hdistinct Hnames Htext Htoks Hlens.
  pose proof (classified_columns _ _ _ Htoks Hlens) as Hcols.
  assert (Forall (fun f => header_name f = true) (columns data)) as Hnames'.
  { apply Forall_forall. rewrite forallb_forall in Hnames. exact Hnames. }
  assert (columns data <> []) as Hne'.
  { destruct data; [congruence|discriminate]. }
  assert (length cols = length (columns data)) as Hlen.
  { unfold columns. rewrite length_map.
    apply option_all_length in Htext. exact Htext. }
  eexists. split.
  - apply to_csv_text; [exact Htext| |].
    + apply Forall_forall. intros f Hf. rewrite Forall_forall in Hnames'.
      apply (header_name_inv f (Hnames' f Hf)).
    + apply Forall_forall. intros col Hcol. rewrite Forall_forall in Hcols.
      destruct (Hcols col Hcol) as [Hl Hfields]. split; [exact Hl|].
      apply Forall_forall. intros f Hf. rewrite Forall_forall in Hfields.
      apply Hfields. exact Hf.
  - unfold load_data. cbn [file_name content].
    rewrite endswith_append.
    rewrite (read_csv_records (columns data) cols (nrows data)) by assumption.
    rewrite Htoks. reflexivity.
Qed.



(** ** The tables [load_data] yields *)


Lemma size_infer (fields : list (string * token)) :
  size (infer fields) = length fields.
Proof.
  unfold infer. destruct (map snd fields) as [|t toks] eqn:Htoks.
  - destruct fields; [reflexivity|discriminate].
  - rewrite <- Htoks.
    repeat match goal with
           | |- context [if ?b then _ else _] => destruct b
           end; simpl; rewrite ?length_map; reflexivity.
Qed.


Lemma rectangular_of_sizes (n : nat) (data : DataFrame) :
  Forall (fun c => size (vals c) = n) data -> rectangular data.
Proof.
  intros H. unfold rectangular. destruct data as [|c data]; [constructor|].
  pose proof (Forall_inv H) as Hc. cbn [len]. cbn beta in Hc.
  rewrite Hc. exact H.
Qed.


(** The table of the witness of C8 is the one a header-only file loads as. *)
Example header_only_loaded :
  read_csv ("a,b" ++ chr LF) = Some (ret header_only).
Proof. reflexivity. Qed.

(** The left cleaning steps keep the column names, so the names stay
    distinct through a run. *)
Lemma columns_getitem_mask (m : list bool) (data : DataFrame) :
  columns (getitem_mask m data) = columns data.
Proof.
  unfold columns, getitem_mask. rewrite map_map. reflexivity.
Qed.



(** * Further properties of the script *)

(** ** What the cleaning messages count *)

Lemma count_true_negb (m : list bool) :
  count_true (map negb m) + count_true m = length m.
Proof.
  unfold count_true. induction m as [|b m IH]; simpl; [reflexivity|].
  destruct b; simpl; lia.
Qed.



Lemma isnull_length (v : values) : length (isnull v) = size v.
Proof. destruct v; simpl; apply length_map. Qed.

Lemma isnull_any_row_length (data : DataFrame) :
  length (isnull_any_row data) = len data.
Proof.
  unfold isnull_any_row. rewrite length_map. apply transpose_length.
Qed.


Lemma isnull_take (m : list bool) (v : values) :
  isnull (take m v) = boolean_mask m (isnull v).
Proof. destruct v; simpl; rewrite boolean_mask_map; reflexivity. Qed.

(** In the columns masked by "no flag in the row", no flag is left. *)
Lemma boolean_mask_rows_without_flag (n : nat) (cols : list (list bool)) :
  Forall (fun col =>
            any (boolean_mask (map negb (map any (transpose false n cols))) col)
            = false)
         cols.
Proof.
  revert cols. induction n as [|n IH]; intros cols.
  - apply Forall_forall. intros col _. reflexivity.
  - cbn [transpose map]. apply Forall_forall. intros col Hcol.
    specialize (IH (map (@tl bool) cols)). rewrite Forall_forall in IH.
    destruct col as [|b col].
    { rewrite boolean_mask_nil. reflexivity. }
    assert (In col (map (@tl bool) cols)) as Htl.
    { apply in_map_iff. exists (b :: col). tauto. }
    cbn [boolean_mask].
    destruct (any (map (hd false) cols)) eqn:Hrow; cbn [negb].
    + apply IH. exact Htl.
    + assert (b = false) as ->.
      { destruct b; [|reflexivity]. unfold any in Hrow.
        assert (existsb id (map (hd false) cols) = true) as Hex.
        { apply existsb_exists. exists true. split; [|reflexivity].
          apply in_map_iff. exists (true :: col). tauto. }
        congruence. }
      unfold any in *. cbn [existsb id orb]. apply IH. exact Htl.
Qed.


Lemma no_missing_row_no_missing (data : DataFrame) :
  rectangular data ->
  count_true (isnull_any_row data) = 0 ->
  Forall (fun c => any (isnull (vals c)) = false) data.
Proof.
  intros Hrect Hzero.
  pose proof (boolean_mask_rows_without_flag (len data)
                (map (fun c => isnull (vals c)) data)) as H.
  fold (isnull_any_row data) in H.
  rewrite (count_true_zero_all_false _ Hzero), isnull_any_row_length in H.
  rewrite Forall_forall in H. apply Forall_forall. intros c Hc.
  rewrite <- (boolean_mask_all_true (len data) (isnull (vals c))).
  - apply H. apply in_map_iff. exists c. tauto.
  - rewrite isnull_length. unfold rectangular in Hrect.
    rewrite Forall_forall in Hrect. rewrite (Hrect c Hc). lia.
Qed.



(** ** Dropping rows twice, and after removing duplicates *)

Lemma isnull_any_row_getitem_mask (m : list bool) (data : DataFrame) :
  length m = len data ->
  isnull_any_row (getitem_mask m data) = boolean_mask m (isnull_any_row data).
Proof.
  intros H. unfold isnull_any_row. rewrite len_getitem_mask by exact H.
  rewrite boolean_mask_map, <- H, <- transpose_boolean_mask. do 2 f_equal.
  unfold getitem_mask. rewrite !map_map. apply map_ext.
  intros c. apply isnull_take.
Qed.

Lemma count_true_mask_negb (a : list bool) :
  count_true (boolean_mask (map negb a) a) = 0.
Proof.
  unfold count_true. induction a as [|b a IH]; [reflexivity|].
  destruct b; simpl; exact IH.
Qed.

Lemma isnull_any_row_dropna (data : DataFrame) :
  count_true (isnull_any_row (dropna data)) = 0.
Proof.
  unfold dropna. rewrite isnull_any_row_getitem_mask.
  - apply count_true_mask_negb.
  - rewrite length_map. apply isnull_any_row_length.
Qed.

Lemma dropna_twice (data : DataFrame) : dropna (dropna data) = dropna data.
Proof.
  unfold dropna at 1.
  rewrite (count_true_zero_all_false _ (isnull_any_row_dropna data)).
  rewrite isnull_any_row_length.
  apply getitem_mask_all_true.
  assert (len (dropna data) = count_true (map negb (isnull_any_row data))) as ->.
  { unfold dropna. apply len_getitem_mask.
    rewrite length_map. apply isnull_any_row_length. }
  unfold dropna, getitem_mask.
  apply Forall_forall. intros c Hc. apply in_map_iff in Hc.
  destruct Hc as [c0 [<- _]]. apply size_take_le.
Qed.

(** Dropping the rows with missing values a second time changes nothing:
    the second pass finds no such row and says so. *)
Theorem drop_missing_rows_idempotent (data : DataFrame) :
  let data' := fst (drop_missing_rows data) in
  drop_missing_rows data' = (data', info "No missing values found in your data.")
  /\ dropna (dropna data) = dropna data.
Proof.
  assert (count_true (isnull_any_row (fst (drop_missing_rows data))) = 0) as Hzero.
  { unfold drop_missing_rows.
    destruct (Nat.ltb 0 (count_true (isnull_any_row data))) eqn:Hlt; cbn [fst].
    - apply isnull_any_row_dropna.
    - apply Nat.ltb_ge in Hlt. lia. }
  cbn zeta. split; [|apply dropna_twice].
  unfold drop_missing_rows at 1. rewrite Hzero. reflexivity.
Qed.

(** Rows kept from a table without duplicates hold no duplicates. *)
Lemma duplicated_from_mask (m : list bool) (seen seen' rs : list (list key)) :
  incl seen' seen ->
  count_true (duplicated_from seen rs) = 0 ->
  count_true (duplicated_from seen' (boolean_mask m rs)) = 0.
Proof.
  revert m seen seen'. induction rs as [|r rs IH]; intros m seen seen' Hincl Hzero.
  - rewrite boolean_mask_nil. reflexivity.
  - destruct m as [|b m]; [reflexivity|].
    cbn [duplicated_from] in Hzero. unfold count_true in Hzero. cbn [filter] in Hzero.
    destruct (existsb (row_eqb r) seen) eqn:Hdup; [discriminate Hzero|].
    cbn [id] in Hzero. fold (count_true (duplicated_from (r :: seen) rs)) in Hzero.
    cbn [boolean_mask]. destruct b.
    + cbn [duplicated_from].
      assert (existsb (row_eqb r) seen' = false) as Hnew.
      { destruct (existsb (row_eqb r) seen') eqn:Hnew; [|reflexivity].
        apply existsb_exists in Hnew. destruct Hnew as [s [Hs Heq]].
        assert (existsb (row_eqb r) seen = true) as Hold.
        { apply existsb_exists. exists s. split; [apply Hincl; exact Hs|exact Heq]. }
        congruence. }
      rewrite Hnew. unfold count_true. cbn [filter id].
      apply (IH m (r :: seen)); [|exact Hzero].
      intros s [<-|Hs]; [left; reflexivity|right; apply Hincl; exact Hs].
    + apply (IH m (r :: seen)); [|exact Hzero].
      intros s Hs. right. apply Hincl. exact Hs.
Qed.

Lemma duplicated_getitem_mask (m : list bool) (data : DataFrame) :
  length m = len data ->
  count_true (duplicated data) = 0 ->
  count_true (duplicated (getitem_mask m data)) = 0.
Proof.
  intros Hlen Hzero. unfold duplicated. rewrite rows_getitem_mask by exact Hlen.
  apply duplicated_from_mask with []; [apply incl_refl|exact Hzero].
Qed.

(** With "Remove Duplicate Rows" ticked and "Drop rows with any missing
    values" chosen, the cleaned table has no row equal to an earlier row
    and no row with a missing value, and both messages are shown. *)
Theorem cleaning_left_no_duplicate_no_missing (ui : Widgets) (data : DataFrame) :
  remove_duplicates_box ui = true ->
  handle_missing_box ui = true ->
  missing_method ui = DropRows ->
  exists data' m1 m2,
    cleaning_left ui data = ret (data', [m1; m2])
    /\ m1 = snd (remove_duplicate_rows data)
    /\ count_true (duplicated data') = 0
    /\ count_true (isnull_any_row data') = 0.
Proof.
  intros Hbox1 Hbox2 Hmethod. unfold cleaning_left.
  rewrite Hbox1, Hbox2, Hmethod.
  destruct (remove_duplicate_rows data) as [data1 m1] eqn:Hstep1.
  destruct (drop_missing_rows data1) as [data2 m2] eqn:Hstep2.
  exists data2, m1, m2. split; [reflexivity|]. split; [reflexivity|].
  assert (count_true (duplicated data1) = 0) as Hnodup.
  { replace data1 with (fst (remove_duplicate_rows data)) by (rewrite Hstep1; reflexivity).
    unfold remove_duplicate_rows.
    destruct (Nat.ltb 0 (count_true (duplicated data))) eqn:Hlt; cbn [fst].
    - apply duplicated_drop_duplicates.
    - apply Nat.ltb_ge in Hlt. lia. }
  unfold drop_missing_rows in Hstep2.
  destruct (Nat.ltb 0 (count_true (isnull_any_row data1))) eqn:Hlt;
    injection Hstep2 as <- <-.
  - split; [|apply isnull_any_row_dropna].
    unfold dropna. apply duplicated_getitem_mask; [|exact Hnodup].
    rewrite length_map. apply isnull_any_row_length.
  - apply Nat.ltb_ge in Hlt. split; [exact Hnodup|lia].
Qed.

Lemma cleaning_left_no_duplicate_no_missing_witness :
  exists data' m1 m2,
    cleaning_left scenario_widgets scenario_table = ret (data', [m1; m2])
    /\ m1 = snd (remove_duplicate_rows scenario_table)
    /\ count_true (duplicated data') = 0
    /\ count_true (isnull_any_row data') = 0.
Proof.
  apply (cleaning_left_no_duplicate_no_missing scenario_widgets scenario_table);
    reflexivity.
Defined.

(** ** Filling twice *)

Lemma fillna_str_complete (value : string) (v : values) :
  any (isnull v) = false -> fillna_str value v = v.
Proof.
  destruct v as [l|l|l|l]; cbn [isnull fillna_str]; intros Hany; try reflexivity.
  - rewrite Hany. reflexivity.
  - f_equal. rewrite <- (map_id l) at 2. apply map_ext_in. intros o Ho.
    destruct (pyobj_isnull o) eqn:Hnull; [|reflexivity].
    exfalso. unfold any in Hany.
    assert (existsb id (map pyobj_isnull l) = true) as Hex.
    { apply existsb_exists. exists true. split; [|reflexivity].
      apply in_map_iff. exists o. tauto. }
    congruence.
Qed.

(** "Fill with custom value" rewrites the columns that hold a missing
    value and no other: a column without a missing value keeps its values
    and its dtype. *)
Theorem fill_custom_value_touches_incomplete_columns
    (value : string) (data : DataFrame) :
  fst (fill_custom_value value true data)
  = map (fun c => if any (isnull (vals c))
                  then mkSeries (name c) (fillna_str value (vals c))
                  else c) data.
Proof.
  cbn [fill_custom_value fst]. unfold fillna. apply map_ext.
  intros c. destruct (any (isnull (vals c))) eqn:Hany; [reflexivity|].
  rewrite fillna_str_complete by exact Hany. destruct c; reflexivity.
Qed.

(** A second "Fill with custom value", with the same or another value,
    finds nothing to fill: the table of the first fill is kept. *)
Theorem fill_custom_value_twice (value1 value2 : string) (data : DataFrame) :
  fst (fill_custom_value value2 true (fst (fill_custom_value value1 true data)))
  = fst (fill_custom_value value1 true data).
Proof.
  cbn [fill_custom_value fst]. unfold fillna. rewrite map_map. apply map_ext.
  intros c. cbn [name vals]. f_equal. apply fillna_str_complete.
  apply any_false_iff. apply fillna_str_no_null.
Qed.

Lemma filled_with_mean_twice (v : values) :
  filled_with_mean (filled_with_mean v) = filled_with_mean v.
Proof.
  destruct v as [l|l|l|l]; try reflexivity.
  cbn [filled_with_mean]. f_equal.
  destruct (is_nan (nanmean l)) eqn:Hmean.
  - assert (map (fun f => if is_nan f then nanmean l else f) l = l) as Hsame.
    { rewrite <- (map_id l) at 2. apply map_ext_in. intros f _.
      destruct (is_nan f) eqn:Hf; [|reflexivity].
      rewrite (is_nan_eq _ Hf), (is_nan_eq _ Hmean). reflexivity. }
    rewrite !Hsame. reflexivity.
  - rewrite <- (map_id (map _ l)) at 2. apply map_ext_in. intros f Hf.
    apply in_map_iff in Hf. destruct Hf as [f0 [<- _]].
    destruct (is_nan f0) eqn:Hf0.
    + rewrite Hmean. reflexivity.
    + rewrite Hf0. reflexivity.
Qed.

(** "Fill numeric columns with mean" a second time changes nothing: a
    filled column has no missing value left, unless its mean is NaN itself,
    and then the fill puts NaN where NaN was. *)
Theorem fill_numeric_with_mean_twice (data : DataFrame) :
  NoDup (columns data) ->
  select_dtypes_number data <> [] ->
  exists data' shown,
    fill_numeric_with_mean data = ret (data', shown)
    /\ fill_numeric_with_mean data' = ret (data', shown).
Proof.
  intros Hnd Hsome.
  set (fill := fun c : Series values => mkSeries (name c) (filled_with_mean (vals c))).
  assert (columns (map fill data) = columns data) as Hcols.
  { unfold columns. rewrite map_map. reflexivity. }
  assert (select_dtypes_number (map fill data) = select_dtypes_number data) as Hnum.
  { unfold select_dtypes_number, columns. clear.
    induction data as [|c data IH]; [reflexivity|].
    cbn [map filter]. unfold fill at 1. cbn [vals].
    rewrite is_number_filled_with_mean.
    destruct (is_number (vals c)); cbn [map]; rewrite IH; reflexivity. }
  exists (map fill data),
         (success "Filled missing values in numeric columns with their means!").
  split; [apply fill_numeric_with_mean_columns; assumption|].
  rewrite fill_numeric_with_mean_columns.
  - rewrite map_map.
    assert (map (fun c => mkSeries (name (fill c)) (filled_with_mean (vals (fill c)))) data
            = map fill data) as ->; [|reflexivity].
    apply map_ext. intros c.
    unfold fill. cbn [name vals]. rewrite filled_with_mean_twice. reflexivity.
  - rewrite Hcols. exact Hnd.
  - rewrite Hnum. exact Hsome.
Qed.

Lemma fill_numeric_with_mean_twice_witness :
  exists data' shown,
    fill_numeric_with_mean mean_example = ret (data', shown)
    /\ fill_numeric_with_mean data' = ret (data', shown).
Proof.
  apply (fill_numeric_with_mean_twice mean_example).
  - repeat constructor; simpl; intuition discriminate.
  - discriminate.
Defined.

(** ** The information panel and the drop step *)

Lemma no_flag_no_row (n : nat) (cols : list (list bool)) :
  Forall (fun col => any col = false) cols ->
  count_true (map any (transpose false n cols)) = 0.
Proof.
  revert cols. induction n as [|n IH]; intros cols Hcols; [reflexivity|].
  cbn [transpose map]. unfold count_true. cbn [filter].
  assert (any (map (hd false) cols) = false) as ->.
  { unfold any. induction Hcols as [|col cols Hcol _ IHc]; [reflexivity|].
    cbn [map existsb]. rewrite IHc. destruct col as [|b col]; [reflexivity|].
    unfold any in Hcol. cbn [existsb] in Hcol.
    apply orb_false_iff in Hcol. destruct Hcol as [Hb _].
    cbn [hd]. rewrite Hb. reflexivity. }
  apply IH. clear IH.
  induction Hcols as [|col cols Hcol _ IHc]; constructor; [|exact IHc].
  destruct col as [|b col]; [reflexivity|].
  unfold any in *. cbn [existsb tl] in *.
  apply orb_false_iff in Hcol. tauto.
Qed.

(** The information panel shows 0 missing values for every column exactly
    when "Drop rows with any missing values" keeps the table and reports
    that there is nothing to drop. *)
Theorem no_missing_values_iff_nothing_dropped (data : DataFrame) :
  rectangular data ->
  Forall (fun i => missing_values i = 0) (col_types data)
  <-> drop_missing_rows data = (data, info "No missing values found in your data.").
Proof.
  intros Hrect. unfold col_types. rewrite Forall_map. cbn [missing_values].
  split.
  - intros Hinfo. unfold drop_missing_rows.
    assert (count_true (isnull_any_row data) = 0) as ->; [|reflexivity].
    unfold isnull_any_row. apply no_flag_no_row. rewrite Forall_map.
    eapply Forall_impl; [|exact Hinfo].
    intros c Hc. apply any_false_iff. exact Hc.
  - unfold drop_missing_rows.
    destruct (Nat.ltb 0 (count_true (isnull_any_row data))) eqn:Hlt; [discriminate|].
    intros _. apply Nat.ltb_ge in Hlt.
    eapply Forall_impl; [|apply no_missing_row_no_missing; [exact Hrect|lia]].
    intros c Hc. apply any_false_iff. exact Hc.
Qed.

Lemma no_missing_values_iff_nothing_dropped_witness :
  Forall (fun i => missing_values i = 0) (col_types header_only)
  /\ drop_missing_rows header_only
     = (header_only, info "No missing values found in your data.").
Proof.
  assert (Forall (fun i => missing_values i = 0) (col_types header_only)) as H.
  { repeat constructor. }
  split; [exact H|].
  apply (no_missing_values_iff_nothing_dropped header_only); [repeat constructor|exact H].
Defined.

(** ** Converting to the type a column has *)

Lemma getitem_lift (data : DataFrame) (col : string) :
  getitem (lift data) col = (v <- getitem data col ;; ret (plain v)).
Proof.
  unfold getitem, lift. induction data as [|c data IH]; [reflexivity|].
  cbn [map find name]. destruct (String.eqb (name c) col); [reflexivity|exact IH].
Qed.

(** "Convert" to the type the column already has leaves the table as it
    is and reports success: a column of text converted to string, a numeric
    column (integers, floats, booleans) converted to number. *)
Theorem convert_column_types_same_type {pd : Coercions}
    (col : string) (target : TargetType) (data : DataFrame) (v : values) :
  getitem data col = ret v ->
  has_type target (plain v) = true ->
  convert_column_types col target data
  = (lift data,
     success ("Converted " ++ col ++ " to " ++ target_name target ++ "!")).
Proof.
  intros Hget Htype. unfold convert_column_types. rewrite Hget. cbn [bind ret].
  assert (convert target v = ret (plain v)) as ->.
  { destruct target; cbn [has_type] in Htype; try discriminate Htype.
    - destruct v as [l|l|l|l]; try discriminate Htype.
      cbn [convert]. unfold astype_str. rewrite map_map.
      do 3 f_equal. rewrite <- (map_id l) at 2. apply map_ext_in.
      intros o Ho. rewrite forallb_forall in Htype. specialize (Htype o Ho).
      destruct o; try discriminate Htype. reflexivity.
    - destruct v as [l|l|l|l]; try discriminate Htype; reflexivity. }
  unfold ret at 1. cbv iota.
  rewrite setitem_getitem; [reflexivity|].
  rewrite getitem_lift, Hget. reflexivity.
Qed.

Lemma convert_column_types_same_type_witness :
  @convert_column_types refusing_parsers "city" to_string scores
  = (lift scores, success "Converted city to string!").
Proof.
  apply (@convert_column_types_same_type refusing_parsers "city" to_string scores
           (object_ [PStr "Oslo"; PStr "Rome"])); reflexivity.
Defined.

(** ** Selecting columns again *)

Lemma getitem_list_sub (data sub : Table) :
  NoDup (columns data) ->
  (forall c, In c sub -> In c data) ->
  getitem_list data (columns sub) = ret sub.
Proof.
  intros Hnd. unfold getitem_list. induction sub as [|c sub IH]; intros Hsub.
  - reflexivity.
  - cbn [columns map traverse].
    rewrite (getitem_unique data c Hnd (Hsub c (or_introl eq_refl))).
    cbn [bind ret]. fold (columns sub).
    rewrite IH by (intros c' Hc'; apply Hsub; right; exact Hc').
    cbn [bind ret]. destruct c; reflexivity.
Qed.

Lemma getitem_list_columns (data data' : Table) (cols : list string) :
  getitem_list data cols = ret data' -> columns data' = cols.
Proof.
  unfold getitem_list. revert data'.
  induction cols as [|col cols IH]; intros data'; cbn [traverse].
  - intros [= <-]. reflexivity.
  - destruct (getitem data col) as [e|v]; cbn [bind ret]; [discriminate|].
    destruct (traverse _ cols) as [e|rest]; cbn [bind ret]; [discriminate|].
    intros [= <-]. cbn [columns map name]. f_equal. apply IH. reflexivity.
Qed.

(** "Filter Columns" with the selection the widget starts with, all the
    columns in table order, keeps the table as it is. *)
Theorem filter_columns_default_selection (data : Table) :
  NoDup (columns data) ->
  data <> [] ->
  filter_columns (columns data) data
  = ret (data, success ("Kept " ++ str_nat (length data)
                        ++ " columns in your dataset!")).
Proof.
  intros Hnd Hne. unfold filter_columns.
  pose proof (getitem_list_sub data data Hnd (fun c Hc => Hc)) as Hall.
  destruct data as [|c data]; [congruence|].
  change (columns (c :: data)) with (name c :: columns data) in *.
  rewrite Hall. cbn [bind ret length]. unfold columns. rewrite length_map.
  reflexivity.
Qed.

Lemma filter_columns_default_selection_witness :
  filter_columns (columns two_numeric) two_numeric
  = ret (two_numeric, success "Kept 3 columns in your dataset!").
Proof.
  apply (filter_columns_default_selection two_numeric).
  - repeat constructor; simpl; intuition discriminate.
  - discriminate.
Defined.

(** "Filter Columns" pressed again with the same selection gives the same
    table and the same message. *)
Theorem filter_columns_twice (selected_cols : list string) (data data' : Table)
    (shown : message) :
  NoDup selected_cols ->
  filter_columns selected_cols data = ret (data', shown) ->
  filter_columns selected_cols data' = ret (data', shown).
Proof.
  intros Hnd. unfold filter_columns.
  destruct selected_cols as [|col cols]; [intros [= <- <-]; reflexivity|].
  destruct (getitem_list data (col :: cols)) as [e|sub] eqn:Hsub; cbn [bind ret];
    [discriminate|].
  intros [= <- <-].
  pose proof (getitem_list_columns _ _ _ Hsub) as Hcols.
  rewrite <- Hcols at 1. rewrite getitem_list_sub; [reflexivity| |tauto].
  rewrite Hcols. exact Hnd.
Qed.

Lemma filter_columns_twice_witness :
  exists data' shown,
    filter_columns ["y"; "x"] two_numeric = ret (data', shown)
    /\ filter_columns ["y"; "x"] data' = ret (data', shown).
Proof.
  eexists. eexists. split; [reflexivity|].
  apply (filter_columns_twice ["y"; "x"] two_numeric).
  - repeat constructor; simpl; intuition discriminate.
  - reflexivity.
Defined.

(** ** Filling and the charts *)

(** When every numeric column holds a missing value, "Fill with custom
    value" leaves no numeric column: the page shows the warning in place of
    the charts. *)
Theorem fill_custom_value_hides_charts
    (value : string) (chart : ChartType) (x y : string) (pressed : bool)
    (data : DataFrame) :
  Forall (fun c => is_number (vals c) = true -> any (isnull (vals c)) = true) data ->
  numeric_columns (lift (fst (fill_custom_value value true data))) = []
  /\ visualization chart x y pressed (lift (fst (fill_custom_value value true data)))
     = (None, [warning "Your dataset needs numeric columns for visualization."]).
Proof.
  intros Hall.
  assert (numeric_columns (lift (fst (fill_custom_value value true data))) = []) as Hnone.
  { cbn [fill_custom_value fst]. unfold numeric_columns, fillna, lift.
    induction Hall as [|c data Hc _ IH]; [reflexivity|].
    cbn [map numeric_data vals name].
    destruct (vals c) as [l|l|l|l]; cbn [fillna_str numeric_array].
    - specialize (Hc eq_refl). rewrite any_isnull_int64 in Hc. discriminate Hc.
    - specialize (Hc eq_refl). cbn [isnull] in Hc. rewrite Hc. exact IH.
    - exact IH.
    - exact IH. }
  split; [exact Hnone|].
  unfold visualization. rewrite Hnone. reflexivity.
Qed.

Lemma fill_custom_value_hides_charts_witness :
  visualization BarChart "city" "score" true
    (lift (fst (fill_custom_value "0" true scores)))
  = (None, [warning "Your dataset needs numeric columns for visualization."]).
Proof.
  apply (fill_custom_value_hides_charts "0" BarChart "city" "score" true scores).
  repeat constructor; simpl; try discriminate.
Defined.

(** ** Loading *)


Lemma tokenize_blank (n : nat) :
  tokenize START_RECORD EmptyString []
    (String.concat EmptyString (repeat (chr LF) n)) = Some [].
Proof.
  induction n as [|n IH]; [reflexivity|].
  cbn [repeat]. rewrite concat_empty_cons. exact IH.
Qed.

(** A CSV file that holds nothing but line ends loads no table: the
    exception of the parser is caught and shown as a loading error. *)
Theorem load_data_blank_file (base : string) (n : nat) :
  exists e,
    load_data (mkUploadedFile (base ++ ".csv")
                 (String.concat EmptyString (repeat (chr LF) n)))
    = Some (None, [error ("Error loading file: " ++ e)]).
Proof.
  exists "No columns to parse from file". unfold load_data. cbn [file_name content].
  rewrite endswith_append. unfold read_csv.
  rewrite contains_concat_empty, tokenize_blank; [reflexivity|].
  apply Forall_forall. intros s Hs. apply repeat_spec in Hs. subst s. reflexivity.
Qed.

(** ** The left cleaning column as a whole *)

Lemma getitem_mask_rectangular (m : list bool) (data : DataFrame) :
  rectangular data ->
  length m = len data ->
  rectangular (getitem_mask m data) /\ len (getitem_mask m data) <= len data.
Proof.
  intros Hrect Hlen. split.
  - apply rectangular_of_sizes with (count_true m).
    unfold getitem_mask. rewrite Forall_map. cbn [vals].
    unfold rectangular in Hrect.
    eapply Forall_impl; [|exact Hrect].
    intros c Hc. apply size_take. congruence.
  - rewrite len_getitem_mask by exact Hlen.
    pose proof (count_true_negb m) as H. rewrite <- Hlen.
    unfold count_true in *. rewrite <- (filter_length_le id m). lia.
Qed.

Lemma rectangular_map (g : Series values -> Series values) (data : DataFrame) :
  (forall c, size (vals (g c)) = size (vals c)) ->
  rectangular data ->
  rectangular (map g data) /\ len (map g data) = len data.
Proof.
  intros Hg Hrect.
  assert (len (map g data) = len data) as Hlen.
  { destruct data; [reflexivity|]. simpl. apply Hg. }
  split; [|exact Hlen].
  unfold rectangular in *. rewrite Hlen, Forall_map.
  eapply Forall_impl; [|exact Hrect].
  intros c Hc. rewrite Hg. exact Hc.
Qed.

Lemma size_fillna_str (value : string) (v : values) :
  size (fillna_str value v) = size v.
Proof.
  destruct v as [l|l|l|l]; cbn [fillna_str size]; try reflexivity.
  - destruct (any (map is_nan l)); cbn [size]; [apply length_map|reflexivity].
  - apply length_map.
Qed.

Lemma size_filled_with_mean (v : values) : size (filled_with_mean v) = size v.
Proof.
  destruct v as [l|l|l|l]; cbn [filled_with_mean size]; try reflexivity.
  apply length_map.
Qed.

(** On a table with distinct column names and columns of one length, the
    left cleaning column raises no exception, whatever the widgets say; it
    keeps the column names, keeps the columns of one length, and never adds
    a row. *)
Theorem cleaning_left_keeps_table_well_formed (ui : Widgets) (data : DataFrame) :
  NoDup (columns data) ->
  rectangular data ->
  exists data' shown,
    cleaning_left ui data = ret (data', shown)
    /\ columns data' = columns data
    /\ rectangular data'
    /\ len data' <= len data.
Proof.
  intros Hnd Hrect. unfold cleaning_left.
  assert (exists data1 shown1,
             (if remove_duplicates_box ui
              then let (d, m) := remove_duplicate_rows data in (d, [m])
              else (data, [])) = (data1, shown1)
             /\ columns data1 = columns data
             /\ rectangular data1 /\ len data1 <= len data) as Hstep1.
  { destruct (remove_duplicates_box ui).
    - unfold remove_duplicate_rows.
      destruct (Nat.ltb 0 (count_true (duplicated data))).
      + eexists. eexists. split; [reflexivity|].
        split; [apply columns_getitem_mask|].
        apply getitem_mask_rectangular; [exact Hrect|].
        rewrite length_map. apply duplicated_length.
      + eexists. eexists. split; [reflexivity|]. auto.
    - eexists. eexists. split; [reflexivity|]. auto. }
  destruct Hstep1 as [data1 [shown1 [-> [Hcols1 [Hrect1 Hlen1]]]]].
  assert (NoDup (columns data1)) as Hnd1 by (rewrite Hcols1; exact Hnd).
  destruct (handle_missing_box ui).
  2:{ exists data1, shown1. auto. }
  destruct (missing_method ui).
  - unfold drop_missing_rows.
    destruct (Nat.ltb 0 (count_true (isnull_any_row data1))).
    + eexists. eexists. split; [reflexivity|].
      split; [unfold dropna; rewrite columns_getitem_mask; exact Hcols1|].
      destruct (getitem_mask_rectangular (map negb (isnull_any_row data1)) data1 Hrect1)
        as [Hr Hl].
      { rewrite length_map. apply isnull_any_row_length. }
      split; [exact Hr|]. unfold dropna. lia.
    + eexists. eexists. split; [reflexivity|]. auto.
  - destruct (select_dtypes_number data1) as [|a names] eqn:Hnum.
    + unfold fill_numeric_with_mean. rewrite Hnum. cbn [length Nat.ltb Nat.leb bind ret].
      eexists. eexists. split; [reflexivity|]. auto.
    + rewrite fill_numeric_with_mean_columns by (assumption || congruence).
      cbn [bind ret fst snd].
      eexists. eexists. split; [reflexivity|].
      split; [unfold columns; rewrite map_map; exact Hcols1|].
      destruct (rectangular_map
                  (fun c => mkSeries (name c) (filled_with_mean (vals c))) data1)
        as [Hr Hl]; [intros c; apply size_filled_with_mean|exact Hrect1|].
      split; [exact Hr|]. rewrite Hl. exact Hlen1.
  - unfold fill_custom_value.
    destruct (button ui FillMissingValues).
    + eexists. eexists. split; [reflexivity|].
      split; [unfold fillna, columns; rewrite map_map; exact Hcols1|].
      destruct (rectangular_map
                  (fun c => mkSeries (name c) (fillna_str (fill_value ui) (vals c))) data1)
        as [Hr Hl]; [intros c; apply size_fillna_str|exact Hrect1|].
      split; [exact Hr|]. unfold fillna. rewrite Hl. exact Hlen1.
    + eexists. eexists. split; [reflexivity|]. auto.
Qed.

Lemma cleaning_left_keeps_table_well_formed_witness :
  exists data' shown,
    cleaning_left scenario_widgets scenario_table = ret (data', shown)
    /\ columns data' = ["a"; "b"]
    /\ rectangular data'
    /\ len data' <= 3.
Proof.
  apply (cleaning_left_keeps_table_well_formed scenario_widgets scenario_table).
  - repeat constructor; simpl; intuition discriminate.
  - repeat constructor.
Defined.

(** ** A run as a whole *)


Section Runs.

Context {pd : Coercions}.




End Runs.


(** ** What every reload keeps *)

Lemma column_text_length (c : column) (fields : list string) :
  column_text c = Some fields -> length fields = csize c.
Proof.
  assert (forall v, values_text v = Some fields -> length fields = size v) as Hv.
  { intros [l|l|l|l]; cbn [values_text size].
    - intros [= <-]. apply length_map.
    - apply option_all_length.
    - intros [= <-]. apply length_map.
    - apply option_all_length. }
  destruct c as [v|l|v]; cbn [column_text csize]; [apply Hv|discriminate|apply Hv].
Qed.

Lemma classify_all (fields : list string) :
  forallb readable_field fields = true ->
  exists toks, option_all (map classify fields) = Some toks.
Proof.
  induction fields as [|f fields IH]; cbn [forallb map option_all]; intros H.
  - exists []. reflexivity.
  - apply andb_true_iff in H. destruct H as [Hf Hrest].
    destruct (IH Hrest) as [toks ->].
    unfold readable_field in Hf. apply andb_true_iff in Hf. destruct Hf as [_ Hf].
    destruct (classify f) as [t|]; [|discriminate].
    exists (t :: toks). reflexivity.
Qed.

Lemma export_columns (n : nat) (data : Table) :
  Forall (fun c => csize (vals c) = n /\ exportable (vals c) = true) data ->
  exists cols toks,
    option_all (map (fun c => column_text (vals c)) data) = Some cols
    /\ option_all (map (fun col => option_all (map classify col)) cols) = Some toks
    /\ Forall (fun col => length col = n) cols.
Proof.
  induction 1 as [|c data [Hsize Hok] _ IH].
  - exists [], []. repeat split. constructor.
  - destruct IH as [cols [toks [Htext [Htoks Hlens]]]].
    unfold exportable in Hok.
    destruct (column_text (vals c)) as [fields|] eqn:Hfields; [|discriminate].
    destruct (classify_all fields Hok) as [ts Hts].
    exists (fields :: cols), (ts :: toks).
    cbn [map option_all]. rewrite Hfields, Htext, Hts, Htoks. cbn [option_map].
    split; [reflexivity|]. split; [reflexivity|].
    constructor; [|exact Hlens].
    rewrite (column_text_length _ _ Hfields). exact Hsize.
Qed.

Lemma columns_inferred (names : list string) (cols : list (list string))
    (toks : list (list token)) :
  length cols = length names ->
  length toks = length cols ->
  columns (map (fun '(n, (col, t)) => mkSeries n (infer (combine col t)))
               (combine names (combine cols toks))) = names.
Proof.
  revert cols toks. induction names as [|n names IH]; intros [|col cols] [|t toks];
    simpl; try discriminate; try reflexivity.
  intros [= H1] [= H2]. f_equal. apply IH; assumption.
Qed.

Lemma plain_field_header_name (s : string) :
  plain_field s = true -> header_name s = true.
Proof.
  unfold plain_field, header_name. intros H.
  apply andb_true_iff in H. destruct H as [H H3].
  rewrite H. apply negb_true_iff in H3. apply negb_true_iff.
  repeat (apply orb_false_iff in H3; destruct H3 as [H3 ?]). assumption.
Qed.

(** A header of blank space is skipped with its line, and the first row
    is taken for the header: a blank name is not a plain field. *)
Example blank_header_is_skipped :
  option_map read_csv (to_csv [mkSeries " " (plain (int64 [1; 2]%Z))])
  = Some (Some (ret [mkSeries "1" (int64 [2]%Z)])).
Proof. vm_compute. reflexivity. Qed.

(** Whatever dtypes the reload infers, an exported table with at least one
    row comes back with the same column names, in the same order, and the
    same number of rows, when its names and the texts of its values need
    no quoting and are within what the reader model reads. *)
Theorem csv_reload_keeps_shape (filename : string) (data : Table) :
  1 <= nrows data ->
  Forall (fun c => csize (vals c) = nrows data) data ->
  distinct (columns data) = true ->
  forallb plain_field (columns data) = true ->
  forallb (fun c => exportable (vals c)) data = true ->
  exists text loaded,
    to_csv data = Some text
    /\ load_data (mkUploadedFile (filename ++ ".csv") text) = Some (Some loaded, [])
    /\ columns loaded = columns data
    /\ len loaded = nrows data.
Proof.
  intros Hrows Hrect Hdistinct Hnames Hok.
  assert (Forall (fun c => csize (vals c) = nrows data /\ exportable (vals c) = true) data)
    as Hcols.
  { rewrite forallb_forall in Hok. rewrite Forall_forall in Hrect.
    apply Forall_forall. intros c Hc. split; [apply Hrect|apply Hok]; exact Hc. }
  destruct (export_columns (nrows data) data Hcols) as [cols [toks [Htext [Htoks Hlens]]]].
  assert (data <> []) as Hne.
  { destruct data; [simpl in Hrows; lia|discriminate]. }
  assert (length cols = length (columns data)) as Hlen.
  { unfold columns. rewrite length_map. apply option_all_length in Htext. exact Htext. }
  assert (length toks = length cols) as Hlen'.
  { apply option_all_length in Htoks. exact Htoks. }
  destruct (export_reload filename data cols toks) as [text [Hcsv Hread]];
    try assumption.
  { apply forallb_forall. intros f Hf. apply plain_field_header_name.
    rewrite forallb_forall in Hnames. apply Hnames. exact Hf. }
  exists text. eexists. split; [exact Hcsv|]. split; [exact Hread|]. split.
  - apply columns_inferred; assumption.
  - apply option_all_Forall2 in Htoks.
    assert (columns data <> []) as Hne'.
    { destruct data; [congruence|discriminate]. }
    destruct (columns data) as [|n names]; [congruence|].
    destruct Htoks as [|col t cols toks Ht _]; [discriminate|].
    cbn [combine map len vals]. rewrite size_infer, length_combine.
    apply option_all_length in Ht. rewrite Ht, Nat.min_id.
    apply (Forall_inv Hlens).
Qed.

(** The table whose column [a] changes its dtype on the way keeps its
    names and its two rows. *)
Lemma csv_reload_keeps_shape_witness :
  exists text loaded,
    to_csv digits_table = Some text
    /\ load_data (mkUploadedFile "processed_data.csv" text) = Some (Some loaded, [])
    /\ columns loaded = ["a"; "b"]
    /\ len loaded = 2.
Proof.
  apply (csv_reload_keeps_shape "processed_data" digits_table).
  - vm_compute. lia.
  - repeat constructor.
  - reflexivity.
  - reflexivity.
  - vm_compute. reflexivity.
Defined.

(** ** Rows are dropped, never changed *)

Lemma boolean_mask_incl {A} (m : list bool) (l : list A) :
  incl (boolean_mask m l) l.
Proof.
  revert l. induction m as [|b m IH]; intros [|x l]; simpl;
    try (intros y []); destruct b.
  - intros y [<-|Hy]; [left; reflexivity|right; apply IH; exact Hy].
  - intros y Hy. right. apply IH. exact Hy.
Qed.

Lemma cells_take (m : list bool) (v : values) :
  cells (take m v) = boolean_mask m (cells v).
Proof. destruct v; simpl; rewrite boolean_mask_map; reflexivity. Qed.

Lemma value_rows_getitem_mask (m : list bool) (data : DataFrame) :
  length m = len data ->
  value_rows (getitem_mask m data) = boolean_mask m (value_rows data).
Proof.
  intros H. unfold value_rows. rewrite len_getitem_mask by exact H.
  rewrite <- H, <- transpose_boolean_mask. f_equal.
  unfold getitem_mask. rewrite !map_map. apply map_ext.
  intros c. apply cells_take.
Qed.

(** Removing duplicates and dropping rows with missing values only take
    rows away: every row of the cleaned table is a row of the table before,
    value by value. *)
Theorem cleaning_rows_come_from_table (data : DataFrame) :
  incl (value_rows (fst (remove_duplicate_rows data))) (value_rows data)
  /\ incl (value_rows (fst (drop_missing_rows data))) (value_rows data).
Proof.
  split.
  - unfold remove_duplicate_rows.
    destruct (Nat.ltb 0 (count_true (duplicated data))); cbn [fst];
      [|apply incl_refl].
    unfold drop_duplicates. rewrite value_rows_getitem_mask.
    + apply boolean_mask_incl.
    + rewrite length_map. apply duplicated_length.
  - unfold drop_missing_rows.
    destruct (Nat.ltb 0 (count_true (isnull_any_row data))); cbn [fst];
      [|apply incl_refl].
    unfold dropna. rewrite value_rows_getitem_mask.
    + apply boolean_mask_incl.
    + rewrite length_map. apply isnull_any_row_length.
Qed.

(** ** The information panel *)

Lemma count_true_le (m : list bool) : count_true m <= length m.
Proof. unfold count_true. apply filter_length_le. Qed.

(** The information panel has one line per column, in table order, with
    the name and the dtype of the column, and no column is shown with more
    missing values than the table has rows. *)
Theorem col_types_describes_columns (data : DataFrame) :
  rectangular data ->
  map column_name (col_types data) = columns data
  /\ map data_type (col_types data) = map (fun c => dtype (vals c)) data
  /\ Forall (fun i => missing_values i <= len data) (col_types data).
Proof.
  intros Hrect. unfold col_types. rewrite !map_map, Forall_map.
  split; [reflexivity|]. split; [reflexivity|].
  unfold rectangular in Hrect. eapply Forall_impl; [|exact Hrect].
  intros c Hc. cbn [missing_values]. rewrite <- Hc, <- isnull_length.
  apply count_true_le.
Qed.

Lemma col_types_describes_columns_witness :
  map column_name (col_types scenario_table) = ["a"; "b"]
  /\ map data_type (col_types scenario_table) = ["int64"; "float64"]
  /\ Forall (fun i => missing_values i <= 3) (col_types scenario_table).
Proof.
  apply (col_types_describes_columns scenario_table). repeat constructor.
Defined.

(** ** Conversions and the numeric columns *)

Lemma in_numeric_columns (data : Table) (col : string) :
  In col (numeric_columns data)
  <-> exists c, In c data /\ name c = col /\ numeric_array (vals c) <> None.
Proof.
  unfold numeric_columns, columns. induction data as [|c data IH]; cbn [numeric_data map].
  - split; [intros []|intros [c [[] _]]].
  - destruct (numeric_array (vals c)) as [a|] eqn:Ha; cbn [map name In]; rewrite IH.
    + split.
      * intros [Hc|[c' [Hc' H]]]; [exists c|exists c']; cbn [In]; intuition congruence.
      * intros [c' [[<-|Hc'] H]]; [left; tauto|right; exists c'; tauto].
    + split.
      * intros [c' [Hc' H]]. exists c'. cbn [In]. tauto.
      * intros [c' [[<-|Hc'] [Hn Hnum]]]; [congruence|exists c'; tauto].
Qed.

Section ConversionAndCharts.

Context {pd : Coercions}.

(** A column converted to string, date or category is no numeric column
    of the table any more, so the charts do not offer it as Y axis and the
    correlation matrix leaves it out; the other columns are numeric or not
    as before. *)
Theorem convert_leaves_numeric_columns
    (col : string) (target : TargetType) (data : DataFrame) (v : values) (c : column) :
  NoDup (columns data) ->
  target <> to_number ->
  getitem data col = ret v ->
  convert target v = ret c ->
  let table := fst (convert_column_types col target data) in
  ~ In col (numeric_columns table)
  /\ forall other, other <> col ->
       (In other (numeric_columns table) <-> In other (numeric_columns (lift data))).
Proof.
  intros Hnd Htarget Hget Hconv. cbn zeta.
  unfold convert_column_types. rewrite Hget. cbn [bind ret]. rewrite Hconv.
  unfold ret. cbn [fst].
  assert (numeric_array c = None) as Hc.
  { pose proof (convert_has_type target v c Hconv) as Htype.
    destruct target, c as [[l|l|l|l]|l|w]; cbn [has_type] in Htype;
      try discriminate Htype; try reflexivity; congruence. }
  assert (In col (columns (lift data))) as Hin.
  { rewrite columns_lift. apply getitem_in_columns with v. exact Hget. }
  rewrite setitem_map by (assumption || (rewrite columns_lift; assumption)).
  split.
  - intros H. apply in_numeric_columns in H. destruct H as [s [Hs [Hname Hnum]]].
    apply in_map_iff in Hs. destruct Hs as [s0 [<- _]].
    destruct (String.eqb_spec (name s0) col) as [Heq|Hne]; cbn [name vals] in *;
      congruence.
  - intros other Hother. rewrite !in_numeric_columns. split.
    + intros [s [Hs [Hname Hnum]]]. apply in_map_iff in Hs.
      destruct Hs as [s0 [<- Hs0]].
      destruct (String.eqb_spec (name s0) col) as [Heq|Hne]; cbn [name vals] in *;
        [congruence|]. exists s0. tauto.
    + intros [s [Hs [Hname Hnum]]]. exists s. split; [|tauto].
      apply in_map_iff. exists s. split; [|exact Hs].
      destruct (String.eqb_spec (name s) col); [congruence|reflexivity].
Qed.

End ConversionAndCharts.

Lemma convert_leaves_numeric_columns_witness :
  In "score" (numeric_columns (lift scores))
  /\ ~ In "score"
       (numeric_columns (fst (@convert_column_types refusing_parsers
                                "score" to_string scores))).
Proof.
  split; [left; reflexivity|].
  apply (@convert_leaves_numeric_columns refusing_parsers "score" to_string scores
           (float64 [1.5%float; nan])
           (plain (@astype_str refusing_parsers (float64 [1.5%float; nan])))).
  - repeat constructor; simpl; intuition discriminate.
  - discriminate.
  - reflexivity.
  - reflexivity.
Defined.
